(** * Request authorization and API-error normalization of the page handlers

    A shallow embedding of the three route modules of the application:

    - [UserEdit]   : [app/routes/users+/$userId_.edit.tsx] (loader and action),
    - [UserDetail] : the user-detail route (loader),
    - [Signup]     : the signup route (action),

    of the authentication helpers ([Auth], [AuthSession]) and of the
    components the three routes render ([UserDetailPage], [UserEditPage],
    [SignupPage]), as element trees ([Jsx]).

    The handlers are [async] functions that talk to an identity provider and
    to a backend API and that may throw.  They are written here in a small
    state-and-exception monad, [Handler]: the state records the backend calls
    issued so far and the console output, an exception is a thrown JavaScript
    value.  The services the handlers import from modules that are not part
    of these files ([createSupabaseServerClient] and the client it builds,
    [getApiClient]) are fields of a [Services] record over which every
    statement quantifies. *)

From Stdlib Require Import String Ascii List Bool.
From ExtLib Require Import Structures.Monad Structures.MonadExc.
Import ListNotations.
Import MonadNotation.
Local Open Scope string_scope.
Local Open Scope monad_scope.

Set Warnings "-register-all".

(** ** Decoded JSON payloads *)

(** The value [JSON.parse] (through [response.json()]) hands to a handler.
    A number is kept by its decimal rendering, the only thing a handler can
    observe of it (through string conversion).  The fields of an object are
    its own properties, in order, each name at most once. *)
Inductive json : Type :=
| JNull
| JBool (b : bool)
| JNum (repr : string)
| JStr (s : string)
| JArr (items : list json)
| JObj (fields : list (string * json)).

(** The [typeof] operator. *)
Definition typeof (v : json) : string :=
  match v with
  | JNull | JArr _ | JObj _ => "object"
  | JBool _ => "boolean"
  | JNum _ => "number"
  | JStr _ => "string"
  end.

Fixpoint lookup {A : Type} (k : string) (l : list (string * A)) : option A :=
  match l with
  | [] => None
  | (k', v) :: rest => if String.eqb k k' then Some v else lookup k rest
  end.

(** Property read [v.k] on a decoded payload; [None] is [undefined].  The
    handlers read a property only of a payload their classifier accepted,
    which is then an object. *)
Definition prop (k : string) (v : json) : option json :=
  match v with
  | JObj fields => lookup k fields
  | _ => None
  end.

(** [k in v] for a non-primitive [v] and a name [k] that neither
    [Object.prototype] nor [Array.prototype] defines and that is not an array
    index or [length]: the two classifiers ask for ["code"] and ["error"].
    For such a name only the own properties of an object count, and an array
    has none. *)
Definition has_property (k : string) (v : json) : bool :=
  match v with
  | JObj fields =>
      match lookup k fields with
      | Some _ => true
      | None => false
      end
  | _ => false
  end.

(** String conversion (ToString) of a decoded payload: what a template
    literal and the [Error] constructor apply to their argument. *)
Fixpoint to_js_string (v : json) : string :=
  match v with
  | JNull => "null"
  | JBool true => "true"
  | JBool false => "false"
  | JNum repr => repr
  | JStr s => s
  | JArr items =>
      (fix join (l : list json) : string :=
         match l with
         | [] => ""
         | x :: rest =>
             let sx := match x with JNull => "" | _ => to_js_string x end in
             match rest with
             | [] => sx
             | _ :: _ => sx ++ "," ++ join rest
             end
         end) items
  | JObj _ => "[object Object]"
  end.

(** ** Thrown values and completions *)

(** What a [throw] carries: an instance of [Error] (with its [name] and
    [message]) or any other value. *)
Inductive Thrown : Type :=
| JsError (name message : string)
| JsValue (v : json).

(** [new Error(m)] for a string [m]. *)
Definition new_Error (message : string) : Thrown := JsError "Error" message.

(** [new Error(x)] for a property value [x]: [undefined] leaves the message
    empty, anything else is converted to a string. *)
Definition new_Error_of (x : option json) : Thrown :=
  match x with
  | None => JsError "Error" ""
  | Some v => JsError "Error" (to_js_string v)
  end.

(** How an evaluation ends: normally with a value, or abruptly. *)
Inductive Completion (A : Type) : Type :=
| Returned (a : A)
| Threw (t : Thrown).
Arguments Returned {A} a.
Arguments Threw {A} t.

(** ** Requests, identities, backend calls *)

Definition Headers := list (string * string).

(** The fields of a submitted form, in order. *)
Definition FormData := list (string * string).

(** The inbound request: its [Cookie] header ([request.headers.get("Cookie")],
    [None] for [null]) and how [request.formData()] ends: with the fields of
    the form, or throwing when the body is not a form. *)
Record Request : Type := mkRequest {
  cookie : option string;
  body : Completion FormData
}.

(** [formData.get(name)]: the first value of that name, or [null]. *)
Definition formData_get (formData : FormData) (name : string) : option string :=
  lookup name formData.

(** Route parameters: [params.userId] is a string or [undefined]. *)
Record Params : Type := mkParams {
  userId : option string
}.

(** The authenticated principal; only its [id] is read. *)
Record User : Type := mkUser {
  id : string
}.

(** The endpoints of the typed API client the handlers call:
    [api.users[":userId"].$get], [api.users[":userId"].$patch] and
    [api.users[":userId"].posts.$get]. *)
Inductive Endpoint : Type :=
| users_get
| users_patch
| users_posts_get.

(** One call on the API client with the argument object it was given:
    [param], and [query] and [json] when the argument has them. *)
Record ApiCall : Type := mkApiCall {
  endpoint : Endpoint;
  param : list (string * string);
  query : option (list (string * string));
  json_body : option json
}.

(** The response of the backend as a handler sees it: [response.ok] and the
    completion of [response.json()], which throws on a malformed body. *)
Record HttpResponse : Type := mkHttpResponse {
  ok : bool;
  json_result : Completion json
}.

(** What [client.auth.signInWithOAuth] resolves to: [data] (an object with
    a [url] that may be [null], or [null]) and [error] (an object with a
    [message], or [null]). *)
Record OAuthData : Type := mkOAuthData {
  url : option string
}.

Record AuthError : Type := mkAuthError {
  message : string
}.

Record OAuthResponse : Type := mkOAuthResponse {
  oauth_data : option OAuthData;
  oauth_error : option AuthError
}.

(** The services a handler reaches through [request] and [context].
    - [getUser request] is [data.user] of
      [createSupabaseServerClient(request, context).client.auth.getUser()];
    - [session_headers request] is the [headers] member of the object
      [createSupabaseServerClient] returns, the cookies the session exchange
      wants set on the response;
    - [signInWithOAuth request provider redirectTo] is what
      [client.auth.signInWithOAuth({ provider, options: { redirectTo } })]
      resolves to;
    - [backend history call] is how a call on [getApiClient(context, request)]
      ends, given the calls issued before it: it throws (transport failure) or
      resolves to a response.  The client is built for the request at hand;
      the statements below follow one request at a time and do not compare
      the answers given to two different requests;
    - [header_value_error value] is what the platform's [Headers] throws when
      it is given [value] as the value of a header, [None] when the value is
      a legal header value. *)
Record Services : Type := mkServices {
  getUser : Request -> option User;
  session_headers : Request -> Headers;
  signInWithOAuth : Request -> string -> string -> OAuthResponse;
  backend : list ApiCall -> ApiCall -> Completion HttpResponse;
  header_value_error : string -> option Thrown
}.

(** ** The handler monad *)

(** The effects of a handler that outlive it: the backend calls it issued and
    what it wrote with [console.error]. *)
Record World : Type := mkWorld {
  calls : list ApiCall;
  console : list (string * Thrown)
}.

Definition Handler (A : Type) : Type := World -> Completion A * World.

#[export] Instance Monad_Handler : Monad Handler := {|
  ret := fun A (a : A) (w : World) => (Returned a, w);
  bind := fun A B (c : Handler A) (k : A -> Handler B) (w : World) =>
    match c w with
    | (Returned a, w') => k a w'
    | (Threw t, w') => (Threw t, w')
    end
|}.

(** [raise] is [throw]; [catch c h] is [try { c } catch (e) { h e }]. *)
#[export] Instance Exc_Handler : MonadExc Thrown Handler := {|
  raise := fun A (t : Thrown) (w : World) => (Threw t, w);
  catch := fun A (c : Handler A) (h : Thrown -> Handler A) (w : World) =>
    match c w with
    | (Returned a, w') => (Returned a, w')
    | (Threw t, w') => h t w'
    end
|}.

(** A pure evaluation that may throw, inside a handler. *)
Definition lift {A : Type} (c : Completion A) : Handler A :=
  fun w => (c, w).

(** [await apiClient.api...$method(args)]: the call is issued, then throws or
    resolves as the backend decides. *)
Definition api_call (svc : Services) (c : ApiCall) : Handler HttpResponse :=
  fun w => (backend svc (calls w) c, mkWorld (calls w ++ [c]) (console w)).

(** [await request.formData()]. *)
Definition request_formData (request : Request) : Handler FormData :=
  lift (body request).

(** [await response.json()]. *)
Definition response_json (r : HttpResponse) : Handler json :=
  lift (json_result r).

(** [console.error(label, error)]. *)
Definition console_error (label : string) (t : Thrown) : Handler unit :=
  fun w => (Returned tt, mkWorld (calls w) (console w ++ [(label, t)])).

(** What a handler hands back to the framework: a plain object (property
    values may be [undefined], [None]) or [redirect(location, { headers })]. *)
Inductive Result : Type :=
| Data (obj : list (string * option json))
| Redirect (location : string) (headers : Headers).

(** [redirect(url, { headers })] of the framework: it builds the response
    with [url] as its [Location] header, and throws what the platform's
    [Headers] throws when [url] is not a legal header value.  [headers] is
    taken as given: where the handlers pass one it is a [Headers] object
    already.  The profile-edit loader redirects to a literal path, with a
    cookie value read off a header: that call returns, and is written there
    as the value it returns. *)
Definition redirect (svc : Services) (url : string) (headers : Headers)
  : Completion Result :=
  match header_value_error svc url with
  | Some t => Threw t
  | None => Returned (Redirect url headers)
  end.

(** [!userId] is false exactly for a non-empty string. *)
Definition truthy_string (s : option string) : option string :=
  match s with
  | Some EmptyString => None
  | Some s' => Some s'
  | None => None
  end.

(** [!user || user.id !== userId]. *)
Definition not_self (user : option User) (userId : string) : bool :=
  match user with
  | None => true
  | Some u => negb (String.eqb (id u) userId)
  end.

(** [s || fallback] for a string, [null] or [undefined] [s]. *)
Definition or_else (s : option string) (fallback : string) : string :=
  match truthy_string s with
  | Some s' => s'
  | None => fallback
  end.

(** [v === s] for a form value [v] (a string or [null]) and a string
    literal [s]. *)
Definition is_string (v : option string) (s : string) : bool :=
  match v with
  | Some s' => String.eqb s' s
  | None => false
  end.

(** [v === s] for a property value [v] and a string literal [s]. *)
Definition strict_eq_string (v : option json) (s : string) : bool :=
  match v with
  | Some (JStr s') => String.eqb s' s
  | _ => false
  end.

(** ** [app/routes/users+/$userId_.edit.tsx] *)
Module UserEdit.

(** [typeof response === "object" && response !== null && "code" in response] *)
Definition isApiError (response : json) : bool :=
  String.eqb (typeof response) "object"
  && match response with JNull => false | _ => true end
  && has_property "code" response.

Definition loader (svc : Services) (request : Request) (params : Params)
  : Handler Result :=
  match truthy_string (userId params) with
  | None => raise (new_Error "User ID is required")
  | Some userId =>
      let user := getUser svc request in
      if not_self user userId then raise (new_Error "Unauthorized")
      else
        userResponse <- api_call svc
          (mkApiCall users_get [("userId", userId)] None None) ;;
        userData <- response_json userResponse ;;
        if isApiError userData then
          if strict_eq_string (prop "code" userData) "NotFoundError" then
            ret (Redirect "/complete-profile"
                   [("Set-Cookie", or_else (cookie request) "")])
          else raise (new_Error_of (prop "message" userData))
        else ret (Data [("pageUser", Some userData)])
  end.

(** A form field sent as JSON: a string, or [null] when the field is
    missing. *)
Definition field (v : option string) : json :=
  match v with
  | Some s => JStr s
  | None => JNull
  end.

Definition fallback_message : string := "Failed to update profile".

(** [error instanceof Error ? error.message : "Failed to update profile"] *)
Definition caught_message (error : Thrown) : string :=
  match error with
  | JsError _ message => message
  | JsValue _ => fallback_message
  end.

Definition action (svc : Services) (request : Request) (params : Params)
  : Handler Result :=
  formData <- request_formData request ;;
  let name := formData_get formData "name" in
  let bio := formData_get formData "bio" in
  match truthy_string (userId params) with
  | None => raise (new_Error "User ID is required")
  | Some userId =>
      let user := getUser svc request in
      if not_self user userId then raise (new_Error "Unauthorized")
      else
        catch
          (response <- api_call svc
             (mkApiCall users_patch [("userId", userId)] None
                (Some (JObj [("name", field name); ("bio", field bio)]))) ;;
           responseData <- response_json response ;;
           if negb (ok response) then
             if isApiError responseData then
               ret (Data [("error", prop "message" responseData)])
             else ret (Data [("error", Some (JStr fallback_message))])
           else if isApiError responseData then
             ret (Data [("error", prop "message" responseData)])
           else lift (redirect svc ("/users/" ++ userId) []))
          (fun error =>
             console_error "Error updating user:" error ;;
             ret (Data [("error", Some (JStr (caught_message error)))]))
  end.

End UserEdit.

(** ** The user-detail route *)
Module UserDetail.

(** [new URLSearchParams()] and [searchParams.set(name, value)]: the first
    pair of that name takes the value and the others go, or the pair is
    appended. *)
Definition URLSearchParams := list (string * string).

Fixpoint set (name value : string) (sp : URLSearchParams) : URLSearchParams :=
  match sp with
  | [] => [(name, value)]
  | (n, v) :: rest =>
      if String.eqb n name
      then (name, value) :: filter (fun p => negb (String.eqb (fst p) name)) rest
      else (n, v) :: set name value rest
  end.

(** ["error" in response].  The [in] operator throws a [TypeError] when its
    right operand is not an object (the message is the engine's, here
    V8's). *)
Definition isErrorResponse (response : json) : Completion bool :=
  match response with
  | JArr _ | JObj _ => Returned (has_property "error" response)
  | _ =>
      Threw (JsError "TypeError"
               ("Cannot use 'in' operator to search for 'error' in "
                  ++ to_js_string response))
  end.

(** [${x}] in a template literal. *)
Definition interpolate (x : option json) : string :=
  match x with
  | None => "undefined"
  | Some v => to_js_string v
  end.

Definition loader (svc : Services) (request : Request) (params : Params)
  : Handler Result :=
  match truthy_string (userId params) with
  | None => raise (new_Error "User ID is required")
  | Some userId =>
      let user := getUser svc request in
      userResponse <- api_call svc
        (mkApiCall users_get [("userId", userId)] None None) ;;
      userData <- response_json userResponse ;;
      userFailed <- lift (isErrorResponse userData) ;;
      if (userFailed : bool) then raise (new_Error "User not found")
      else
        let searchParams :=
          match user with
          | None => set "publicOnly" "true" []
          | Some u => set "currentUserId" (id u) []
          end in
        postsResponse <- api_call svc
          (mkApiCall users_posts_get [("userId", userId)] None None) ;;
        data <- response_json postsResponse ;;
        postsFailed <- lift (isErrorResponse data) ;;
        if (postsFailed : bool) then
          raise (new_Error
                   ("Failed to fetch posts: " ++ interpolate (prop "error" data)))
        else ret (Data [("pageUser", Some userData); ("postsData", Some data)])
  end.

End UserDetail.

(** ** [auth.server]: the sign-in helper *)
Module Auth.

(** The object [signInWithGoogle] resolves to. *)
Record SignInResult : Type := mkSignInResult {
  ok : bool;
  data : option OAuthData;
  error : string;
  headers : Headers
}.

Definition default_successRedirectPath : string :=
  "http://localhost:5173/auth/callback".

Definition signInWithGoogle (svc : Services) (request : Request)
  : SignInResult :=
  let supabase_headers := session_headers svc request in
  let r := signInWithOAuth svc request "google" default_successRedirectPath in
  {| ok :=
       match oauth_error r, oauth_data r with
       | None, Some _ => true
       | _, _ => false
       end;
     data := oauth_data r;
     error :=
       match oauth_error r, oauth_data r with
       | Some e, None => message e
       | _, _ => ""
       end;
     headers := supabase_headers |}.

End Auth.

(** ** The signup route *)
Module Signup.

Definition failure_message : string := "アカウント作成に失敗しました".

(** [data?.url]. *)
Definition data_url (d : option OAuthData) : option string :=
  match d with
  | Some d' => url d'
  | None => None
  end.

Definition action (svc : Services) (request : Request) : Handler Result :=
  formData <- request_formData request ;;
  let provider := formData_get formData "provider" in
  if is_string provider "google" then
    let r := Auth.signInWithGoogle svc request in
    match truthy_string (Some (Auth.error r)),
          truthy_string (data_url (Auth.data r)) with
    | None, Some target => lift (redirect svc target (Auth.headers r))
    | _, _ =>
        ret (Data [("error",
               Some (JStr (or_else (Some (Auth.error r)) failure_message)))])
    end
  else ret (Data [("error", Some (JStr "Invalid provider"))]).

End Signup.

(** ** The claim of one classifier for both error shapes, in the words of
    the specification *)

(** A payload "contains an error-indicating field": a generic [error] field,
    or a structured [{code, message}] pair. *)
Definition error_indicating (payload : json) : bool :=
  has_property "error" payload
  || (has_property "code" payload && has_property "message" payload).

(** ** Headers on what a handler hands back *)

(** The headers a handler attaches to its outcome.  Only [redirect] is given
    headers; a plain object and a thrown [Error] carry none, and none of the
    route modules exports a [headers] function. *)
Definition outcome_headers (c : Completion Result) : Headers :=
  match c with
  | Returned (Redirect _ hs) => hs
  | Returned (Data _) => []
  | Threw _ => []
  end.

(** [needle] occurs in [hay]. *)
Fixpoint contains (needle hay : string) : bool :=
  String.prefix needle hay
  || match hay with
     | EmptyString => false
     | String _ rest => contains needle rest
     end.

(** ** Vocabulary of the statements *)

(** The route matched, so [params.userId] is a non-empty string. *)
Definition route_subject (params : Params) (u : string) : Prop :=
  userId params = Some u /\ u <> "".

(** The resolved identity is the subject of the path. *)
Definition is_self (svc : Services) (request : Request) (u : string) : Prop :=
  exists usr, getUser svc request = Some usr /\ id usr = u.

(** The three calls the handlers issue, as they issue them. *)
Definition fetch_user (u : string) : ApiCall :=
  mkApiCall users_get [("userId", u)] None None.

Definition fetch_posts (u : string) : ApiCall :=
  mkApiCall users_posts_get [("userId", u)] None None.

Definition patch_user (u : string) (formData : FormData) : ApiCall :=
  mkApiCall users_patch [("userId", u)] None
    (Some (JObj [("name", UserEdit.field (formData_get formData "name"));
                 ("bio", UserEdit.field (formData_get formData "bio"))])).

(** The backend answers [call], issued after [history], with a response whose
    body decodes to [payload]. *)
Definition answers (svc : Services) (history : list ApiCall) (call : ApiCall)
    (response : HttpResponse) (payload : json) : Prop :=
  backend svc history call = Returned response
  /\ json_result response = Returned payload.

(** The backend accepts [call]: it answers with status ok and a body that
    the edit route does not classify as an error. *)
Definition accepts (svc : Services) (history : list ApiCall) (call : ApiCall)
    : Prop :=
  exists response payload,
    answers svc history call response payload
    /\ ok response = true
    /\ UserEdit.isApiError payload = false.

(** The platform takes [url] as the [Location] of a redirect. *)
Definition legal_location (svc : Services) (url : string) : Prop :=
  header_value_error svc url = None.

(** The call fails in transport with [t]: the request itself throws, or the
    body of the response cannot be decoded. *)
Definition transport_failure (svc : Services) (history : list ApiCall)
    (call : ApiCall) (t : Thrown) : Prop :=
  backend svc history call = Threw t
  \/ exists response,
       backend svc history call = Returned response
       /\ json_result response = Threw t.

(** ** Sample requests and services *)
Module Samples.

Definition world0 : World := mkWorld [] [].

Definition aya : User := mkUser "123".

Definition profile : json :=
  JObj [("id", JStr "123"); ("name", JStr "Aya"); ("email", JStr "aya@example.com");
        ("bio", JNull); ("avatar_url", JNull)].

Definition posts : json :=
  JArr [JObj [("id", JStr "p1"); ("title", JStr "hello"); ("user_id", JStr "123");
              ("is_public", JBool true)]].

Definition not_found : json :=
  JObj [("code", JStr "NotFoundError"); ("message", JStr "user not found")].

Definition validation_error : json :=
  JObj [("code", JStr "ValidationError"); ("message", JStr "name required")].

Definition generic_error : json :=
  JObj [("error", JStr "database unavailable")].

Definition fresh_session : Headers :=
  [("Set-Cookie", "sb-access-token=refreshed; Path=/; HttpOnly")].

Definition no_oauth : Request -> string -> string -> OAuthResponse :=
  fun _ _ _ => mkOAuthResponse None (Some (mkAuthError "provider disabled")).

(** A backend that answers every call with status ok and these bodies. *)
Definition answering (user_body posts_body patch_body : Completion json)
  : list ApiCall -> ApiCall -> Completion HttpResponse :=
  fun _ c =>
    match endpoint c with
    | users_get => Returned (mkHttpResponse true user_body)
    | users_posts_get => Returned (mkHttpResponse true posts_body)
    | users_patch => Returned (mkHttpResponse true patch_body)
    end.

(** A backend that is unreachable. *)
Definition unreachable : list ApiCall -> ApiCall -> Completion HttpResponse :=
  fun _ _ => Threw (JsError "TypeError" "fetch failed").

(** A platform that refuses a header value with a line feed in it. *)
Definition no_line_feed (value : string) : option Thrown :=
  if contains (String (Ascii.ascii_of_nat 10) EmptyString) value
  then Some (JsError "TypeError" "Invalid header value.")
  else None.

Definition services (user : option User)
    (b : list ApiCall -> ApiCall -> Completion HttpResponse) : Services :=
  mkServices (fun _ => user) (fun _ => fresh_session) no_oauth b no_line_feed.

(** Services whose OAuth exchange succeeds and hands out the provider's
    URL. *)
Definition oauth_services : Services :=
  mkServices (fun _ => None) (fun _ => fresh_session)
    (fun _ provider _ =>
       mkOAuthResponse
         (Some (mkOAuthData (Some ("https://accounts.example/o/oauth2?p=" ++ provider))))
         None)
    unreachable no_line_feed.

Definition signup_request : Request :=
  mkRequest None (Returned [("provider", "google")]).

Definition healthy : list ApiCall -> ApiCall -> Completion HttpResponse :=
  answering (Returned profile) (Returned posts) (Returned profile).

Definition patch : FormData := [("name", "Aya"); ("bio", "hello")].

Definition request : Request :=
  mkRequest (Some "sb-access-token=abc") (Returned patch).

Definition anonymous_request : Request := mkRequest None (Returned []).

(** A page load: a [GET] has no form to decode. *)
Definition page_load : Request :=
  mkRequest (Some "sb-access-token=abc")
    (Threw (JsError "TypeError" "Could not parse content as FormData.")).

Definition params : Params := mkParams (Some "123").

End Samples.

(** ** Rendered pages *)

(** A pure evaluation that may throw composes like any other. *)
#[export] Instance Monad_Completion : Monad Completion := {|
  ret := fun A (a : A) => Returned a;
  bind := fun A B (c : Completion A) (k : A -> Completion B) =>
    match c with
    | Returned a => k a
    | Threw t => Threw t
    end
|}.

(** [items.map(f)] for an [f] that may throw: the items are visited in order
    and the first throw ends the loop. *)
Fixpoint traverse {A B : Type} (f : A -> Completion B) (items : list A)
  : Completion (list B) :=
  match items with
  | [] => Returned []
  | x :: rest =>
      y <- f x ;;
      ys <- traverse f rest ;;
      ret (y :: ys)
  end.

(** The element tree a component returns.  Components used as tags ([Link],
    [Form], [Button], [Pencil]) stay as they are written; children that are
    [false], [null] or the empty string render nothing and are left out. *)
Module Jsx.

Inductive PropValue : Type :=
| Str (s : string)
| Num (n : nat)
| Flag (b : bool)
| Handler (body : string).

Inductive Node : Type :=
| Text (s : string)
| Elem (tag : string) (props : list (string * PropValue)) (children : list Node).

(** [{cond && <X />}]. *)
Definition when (cond : bool) (n : Node) : list Node :=
  if cond then [n] else [].

(** [{s}] for a string [s]. *)
Definition text (s : string) : list Node :=
  match s with
  | EmptyString => []
  | _ => [Text s]
  end.

(** Every node of the tree, in document order. *)
Fixpoint descendants (n : Node) : list Node :=
  n :: match n with
       | Text _ => []
       | Elem _ _ children => flat_map descendants children
       end.

Definition prop_string (name : string) (n : Node) : option string :=
  match n with
  | Text _ => None
  | Elem _ props _ =>
      match lookup name props with
      | Some (Str s) => Some s
      | _ => None
      end
  end.

Definition tag_is (tag : string) (n : Node) : bool :=
  match n with
  | Text _ => false
  | Elem tag' _ _ => String.eqb tag' tag
  end.

Fixpoint collect {A : Type} (f : Node -> option A) (nodes : list Node) : list A :=
  match nodes with
  | [] => []
  | n :: rest =>
      match f n with
      | Some a => a :: collect f rest
      | None => collect f rest
      end
  end.

(** The targets of the [Link] elements of the tree, in document order. *)
Definition links (n : Node) : list string :=
  collect (fun d => if tag_is "Link" d then prop_string "to" d else None)
    (descendants n).

(** The [key]s given to elements of the tree, in document order. *)
Definition keys (n : Node) : list string :=
  collect (prop_string "key") (descendants n).

(** The elements of the tree that carry exactly this [className]. *)
Definition with_class (className : string) (n : Node) : list Node :=
  collect (fun d =>
             match prop_string "className" d with
             | Some c => if String.eqb c className then Some d else None
             | None => None
             end) (descendants n).

(** The named form controls of the tree with their initial values: each
    [input] and [textarea] that has a [name], with its [value] or else its
    [defaultValue]. *)
Definition controls (n : Node) : FormData :=
  collect (fun d =>
             if tag_is "input" d || tag_is "textarea" d then
               match prop_string "name" d with
               | Some name =>
                   match prop_string "value" d, prop_string "defaultValue" d with
                   | Some v, _ => Some (name, v)
                   | None, Some v => Some (name, v)
                   | None, None => Some (name, "")
                   end
               | None => None
               end
             else None)
    (descendants n).

End Jsx.

(** The profile as the pages type it ([interface ApiUser]). *)
Module ApiUser.

Record t : Type := mk {
  id : string;
  name : string;
  email : string;
  bio : option string;
  avatar_url : option string;
  created_at : string;
  updated_at : string
}.

End ApiUser.

(** [interface Post] of the user-detail route. *)
Module Post.

Record t : Type := mk {
  id : string;
  title : string;
  content : string;
  created_at : string;
  updated_at : string;
  user_id : string;
  is_public : bool;
  user_name : option string
}.

End Post.

(** The component of the user-detail route, [UserDetail].  [formatDate]
    formats through [Intl.DateTimeFormat], which throws on a date it cannot
    read: it is taken as a function that may throw. *)
Module UserDetailPage.

Import Jsx.

(** [user && user.id === pageUser.id], as a condition. *)
Definition isOwnProfile (user : option User) (pageUser : ApiUser.t) : bool :=
  match user with
  | None => false
  | Some u => String.eqb (id u) (ApiUser.id pageUser)
  end.

Definition post_card (formatDate : string -> Completion string) (post : Post.t)
  : Completion Node :=
  date <- formatDate (Post.created_at post) ;;
  ret (Elem "div" [("key", Str (Post.id post)); ("className", Str "p-4 border rounded-lg")]
         [Elem "div" [("className", Str "flex justify-between items-start mb-2")]
            (Elem "div" [] [Elem "h3" [("className", Str "font-bold text-lg")]
                              (text (Post.title post))]
             :: when (negb (Post.is_public post))
                  (Elem "span"
                     [("className",
                       Str "bg-yellow-100 text-yellow-800 text-xs px-2 py-1 rounded")]
                     [Text "非公開"]));
          Elem "p" [("className", Str "text-gray-700 mb-2")] (text (Post.content post));
          Elem "p" [("className", Str "text-xs text-gray-500")]
            (Text "投稿日: " :: text date)]).

Definition posts_list (formatDate : string -> Completion string)
    (postsData : list Post.t) : Completion Node :=
  match postsData with
  | [] =>
      ret (Elem "div" [("className", Str "text-center py-8 text-gray-500")]
             [Text "まだ投稿がありません。"])
  | _ :: _ =>
      cards <- traverse (post_card formatDate) postsData ;;
      ret (Elem "div" [("className", Str "space-y-4")] cards)
  end.

Definition render (formatDate : string -> Completion string)
    (user : option User) (pageUser : ApiUser.t) (postsData : list Post.t)
  : Completion Node :=
  let isOwn := isOwnProfile user pageUser in
  list <- posts_list formatDate postsData ;;
  ret (Elem "div" [("className", Str "p-8")]
    [Elem "div" [("className", Str "w-full max-w-6xl mx-auto space-y-8")]
      [Elem "div" [("className", Str "mb-8")]
         [Elem "div" [("className", Str "flex justify-between items-start")]
            (Elem "div" []
               (Elem "h1" [("className", Str "text-3xl font-bold mb-4")]
                  (text (ApiUser.name pageUser))
                :: (match truthy_string (ApiUser.bio pageUser) with
                    | Some bio =>
                        [Elem "p" [("className", Str "text-gray-600 mb-2")] [Text bio]]
                    | None => []
                    end
                    ++ match truthy_string (Some (ApiUser.email pageUser)) with
                       | Some email =>
                           [Elem "p" [("className", Str "text-gray-500 text-sm")]
                              [Text "Email: "; Text email]]
                       | None => []
                       end)%list)
             :: when isOwn
                  (Elem "Link"
                     [("to", Str ("/users/" ++ ApiUser.id pageUser ++ "/edit"))]
                     [Elem "Button" [("variant", Str "ghost"); ("size", Str "icon")]
                        [Elem "Pencil" [("className", Str "h-4 w-4")] []]]))];
       Elem "div" []
         [Elem "div" [("className", Str "flex justify-between items-center mb-4")]
            (Elem "h2" [("className", Str "text-2xl font-bold")] [Text "投稿一覧"]
             :: when isOwn
                  (Elem "Link" [("to", Str "/posts/new")]
                     [Elem "Button" [] [Text "新規投稿"]]));
          Elem "div" [("className", Str "border rounded-lg p-4")] [list]]]]).

Definition edit_link (pageUser : ApiUser.t) : string :=
  "/users/" ++ ApiUser.id pageUser ++ "/edit".

Definition empty_state_class : string := "text-center py-8 text-gray-500".

Definition badge_class : string :=
  "bg-yellow-100 text-yellow-800 text-xs px-2 py-1 rounded".

End UserDetailPage.

(** The component of the profile-edit route, [UserEdit]. *)
Module UserEditPage.

Import Jsx.

Definition control_class : string :=
  "mt-1 block w-full px-3 py-2 border border-gray-300 rounded-md shadow-sm focus:outline-none focus:ring-blue-500 focus:border-blue-500 bg-white text-gray-900".

Definition label_class : string := "block text-sm font-medium text-gray-700".

Definition render (pageUser : ApiUser.t) : Node :=
  Elem "div" [("className", Str "p-8")]
    [Elem "div" [("className", Str "w-full max-w-2xl mx-auto")]
       [Elem "h1" [("className", Str "text-3xl font-bold mb-8")]
          [Text "プロフィール編集"];
        Elem "Form" [("method", Str "post"); ("className", Str "space-y-6")]
          [Elem "div" []
             [Elem "label" [("htmlFor", Str "name"); ("className", Str label_class)]
                [Text "名前"];
              Elem "input"
                [("type", Str "text"); ("id", Str "name"); ("name", Str "name");
                 ("defaultValue", Str (ApiUser.name pageUser));
                 ("required", Flag true); ("className", Str control_class)] []];
           Elem "div" []
             [Elem "label" [("htmlFor", Str "bio"); ("className", Str label_class)]
                [Text "自己紹介"];
              Elem "textarea"
                [("id", Str "bio"); ("name", Str "bio"); ("rows", Num 5);
                 ("defaultValue", Str (or_else (ApiUser.bio pageUser) ""));
                 ("className", Str control_class)] []];
           Elem "div" [("className", Str "flex justify-end gap-4")]
             [Elem "Button"
                [("variant", Str "outline"); ("type", Str "button");
                 ("onClick", Handler "window.history.back()")]
                [Text "キャンセル"];
              Elem "Button" [("type", Str "submit")] [Text "更新する"]]]]].

End UserEditPage.

(** The component of the signup route, [Signup]. *)
Module SignupPage.

Import Jsx.

Definition render : Node :=
  Elem "Fragment" []
    [Elem "h2" [("className", Str "mt-6 text-center text-3xl font-extrabold text-gray-900")]
       [Text "アカウント作成"];
     Elem "Form"
       [("method", Str "post"); ("action", Str "/signup");
        ("className", Str "mt-8 space-y-6")]
       [Elem "input"
          [("type", Str "hidden"); ("name", Str "provider"); ("value", Str "google")] [];
        Elem "div" []
          [Elem "button"
             [("type", Str "submit");
              ("className",
               Str "group relative w-full flex justify-center py-2 px-4 border border-transparent text-sm font-medium rounded-md text-white bg-blue-600 hover:bg-blue-700 focus:outline-none focus:ring-2 focus:ring-offset-2 focus:ring-blue-500")]
             [Text "Googleでアカウント作成"]]]].

End SignupPage.

(** ** Sample pages *)
Module PageSamples.

(** A date formatter that accepts dates written with a [T] and throws a
    [RangeError] on the others. *)
Definition iso_date (date : string) : Completion string :=
  if contains "T" date then Returned date
  else Threw (JsError "RangeError" "Invalid time value").

Definition aya_profile : ApiUser.t :=
  ApiUser.mk "123" "Aya" "aya@example.com" None None
    "2024-01-01T00:00:00Z" "2024-01-02T00:00:00Z".

Definition public_post : Post.t :=
  Post.mk "p1" "hello" "first post" "2024-02-01T09:00:00Z" "2024-02-01T09:00:00Z"
    "123" true (Some "Aya").

Definition private_post : Post.t :=
  Post.mk "p2" "draft" "not yet" "2024-02-02T09:00:00Z" "2024-02-02T09:00:00Z"
    "123" false (Some "Aya").

Definition aya_posts : list Post.t := [public_post; private_post].

End PageSamples.

(** ** [auth.server]: the session helpers *)
Module AuthSession.

(** [data.user] of [client.auth.getUser()] on a client made for the
    request. *)
Definition Services_getUser (svc : Services) (request : Request) : option User :=
  getUser svc request.

(** [getUser]: [user ?? null]. *)
Definition getUser (svc : Services) (request : Request) : option User :=
  match Services_getUser svc request with
  | Some user => Some user
  | None => None
  end.


End AuthSession.

(** ** Further vocabulary *)

(** How a backend call with its decoding ends for the caller: with the
    response and its decoded payload, or with what was thrown on the way. *)
Definition exchange (svc : Services) (history : list ApiCall) (call : ApiCall)
  : Completion (HttpResponse * json) :=
  match backend svc history call with
  | Threw t => Threw t
  | Returned response =>
      match json_result response with
      | Threw t => Threw t
      | Returned payload => Returned (response, payload)
      end
  end.

(** The profile lookup of the user-detail loader went through: the backend
    answered and the payload does not classify as an error. *)
Definition profile_found (svc : Services) (history : list ApiCall) (u : string)
    (userData : json) : Prop :=
  (exists response, answers svc history (fetch_user u) response userData)
  /\ UserDetail.isErrorResponse userData = Returned false.

(** A payload on which the [in] operator throws. *)
Definition primitive (payload : json) : bool :=
  match payload with
  | JArr _ | JObj _ => false
  | _ => true
  end.

(** * Properties *)

(** ** Classification *)

Lemma isApiError_object (v : json) :
  UserEdit.isApiError v = true <->
  exists fields c, v = JObj fields /\ lookup "code" fields = Some c.
Proof.
  split.
  - destruct v as [| b | r | s | items | fields]; cbn; try discriminate.
    unfold has_property.
    destruct (lookup "code" fields) as [c |] eqn:E; [| discriminate].
    intros _. exists fields, c. split; [reflexivity | exact E].
  - intros (fields & c & -> & E). cbn. rewrite E. reflexivity.
Qed.

Lemma isErrorResponse_object (v : json) :
  UserDetail.isErrorResponse v = Returned true <->
  exists fields e, v = JObj fields /\ lookup "error" fields = Some e.
Proof.
  split.
  - destruct v as [| b | r | s | items | fields]; cbn; try discriminate.
    destruct (lookup "error" fields) as [e |] eqn:E; [| discriminate].
    intros _. exists fields, e. split; [reflexivity | exact E].
  - intros (fields & e & -> & E). cbn. rewrite E. reflexivity.
Qed.

(** C3, as stated, fails: neither classifier answers as [error_indicating]
    does.  The edit route's [isApiError] lets a generic [{error}] payload
    through as a success, and the detail route's [isErrorResponse] lets a
    structured [{code, message}] payload through. *)
Lemma classifiers_miss_the_other_shape :
  error_indicating Samples.generic_error = true
  /\ UserEdit.isApiError Samples.generic_error = false
  /\ error_indicating Samples.validation_error = true
  /\ UserDetail.isErrorResponse Samples.validation_error = Returned false.
Proof. repeat split. Qed.

(** C3, amended: each route has its own classifier, one per error shape.
    [isApiError] answers true exactly for an object with a [code] field
    (whether or not it has a [message]); [isErrorResponse] answers true
    exactly for an object with an [error] field. *)
Theorem classifiers_one_shape_each (payload : json) :
  (UserEdit.isApiError payload = true <->
     exists fields c, payload = JObj fields /\ lookup "code" fields = Some c)
  /\ (UserDetail.isErrorResponse payload = Returned true <->
        exists fields e, payload = JObj fields /\ lookup "error" fields = Some e).
Proof.
  split; [apply isApiError_object | apply isErrorResponse_object].
Qed.

(** C10: [isErrorResponse] is not total: on [null] the [in] operator throws a
    [TypeError].  [isApiError] answers false on [null] and on every payload
    whose [typeof] is not ["object"]. *)
Theorem isErrorResponse_throws_on_null_isApiError_total (payload : json) :
  typeof payload <> "object" ->
  UserDetail.isErrorResponse JNull
    = Threw (JsError "TypeError"
               "Cannot use 'in' operator to search for 'error' in null")
  /\ UserEdit.isApiError JNull = false
  /\ UserEdit.isApiError payload = false.
Proof.
  intros Hty. repeat split.
  destruct payload; cbn in *; try reflexivity; contradiction Hty; reflexivity.
Qed.

Lemma isErrorResponse_throws_on_null_isApiError_total_witness :
  UserDetail.isErrorResponse JNull
    = Threw (JsError "TypeError"
               "Cannot use 'in' operator to search for 'error' in null")
  /\ UserEdit.isApiError JNull = false
  /\ UserEdit.isApiError (JNum "42") = false.
Proof.
  apply (isErrorResponse_throws_on_null_isApiError_total (JNum "42")).
  discriminate.
Defined.

(** ** Authorization on the self-only route *)

Lemma route_subject_truthy (params : Params) (u : string) :
  route_subject params u -> truthy_string (userId params) = Some u.
Proof.
  intros [-> Hne]. destruct u; [contradiction Hne; reflexivity | reflexivity].
Qed.


Lemma is_self_spec (user : option User) (u : string) :
  not_self user u = false <-> exists usr, user = Some usr /\ id usr = u.
Proof.
  unfold not_self. destruct user as [usr |].
  - rewrite negb_false_iff, String.eqb_eq. split.
    + intros E. exists usr. split; [reflexivity | exact E].
    + intros (usr' & H & E). injection H as <-. exact E.
  - split; [discriminate | intros (usr & H & _); discriminate].
Qed.



(** ** Running a handler *)

Lemma is_self_not_rejected (svc : Services) (request : Request) (u : string) :
  is_self svc request u -> not_self (getUser svc request) u = false.
Proof. intros H. apply is_self_spec. exact H. Qed.

(** Past the guards of the profile-edit loader, up to its first call. *)
Ltac enter_loader Hroute Hself :=
  unfold UserEdit.loader;
  rewrite (route_subject_truthy _ _ Hroute), (is_self_not_rejected _ _ _ Hself);
  cbn [bind ret raise catch Monad_Handler Exc_Handler];
  unfold api_call, response_json, lift.

(** Past the form decoding and the guards of the profile-edit action. *)
Ltac enter_action Hform Hroute Hself :=
  unfold UserEdit.action;
  cbn [bind Monad_Handler];
  unfold request_formData, lift;
  rewrite Hform, (route_subject_truthy _ _ Hroute),
    (is_self_not_rejected _ _ _ Hself);
  cbn [bind ret raise catch Monad_Handler Exc_Handler];
  unfold api_call, response_json, lift, console_error.

Lemma strict_eq_string_true (v : option json) (s : string) :
  strict_eq_string v s = true <-> v = Some (JStr s).
Proof.
  unfold strict_eq_string. destruct v as [[| b | r | s' | items | fields] |];
    try (split; discriminate).
  rewrite String.eqb_eq. split; [intros -> | intros [= ->]]; reflexivity.
Qed.

Lemma strict_eq_string_false (v : option json) (s : string) :
  strict_eq_string v s = false <-> v <> Some (JStr s).
Proof.
  rewrite <- strict_eq_string_true.
  destruct (strict_eq_string v s); split; congruence.
Qed.

(** ** The profile-edit loader *)

(** C5: when the backend answers the profile-edit loader with a payload that
    classifies as a failure whose [code] is ["NotFoundError"], the loader
    returns a redirect to [/complete-profile] whose [Set-Cookie] header is the
    request's [Cookie] header, unchanged (and empty when the request has
    none). *)
Theorem edit_loader_not_found_redirects_with_cookie
    (svc : Services) (request : Request) (params : Params) (u : string)
    (w : World) (response : HttpResponse) (payload : json) :
  route_subject params u ->
  is_self svc request u ->
  answers svc (calls w) (fetch_user u) response payload ->
  UserEdit.isApiError payload = true ->
  prop "code" payload = Some (JStr "NotFoundError") ->
  exists value,
    fst (UserEdit.loader svc request params w)
      = Returned (Redirect "/complete-profile" [("Set-Cookie", value)])
    /\ (forall c, cookie request = Some c -> value = c)
    /\ (cookie request = None -> value = "").
Proof.
  intros Hroute Hself [Hcall Hbody] Herr Hcode.
  exists (or_else (cookie request) "").
  split; [| split].
  - enter_loader Hroute Hself.
    unfold fetch_user in Hcall. rewrite Hcall. cbn. rewrite Hbody, Herr.
    apply strict_eq_string_true in Hcode. rewrite Hcode. reflexivity.
  - intros c ->. destruct c; reflexivity.
  - intros ->. reflexivity.
Qed.

Lemma edit_loader_not_found_redirects_with_cookie_witness :
  fst (UserEdit.loader
         (Samples.services (Some Samples.aya)
            (Samples.answering (Returned Samples.not_found)
               (Returned Samples.posts) (Returned Samples.profile)))
         Samples.request Samples.params Samples.world0)
  = Returned (Redirect "/complete-profile"
                [("Set-Cookie", "sb-access-token=abc")]).
Proof.
  destruct (edit_loader_not_found_redirects_with_cookie
              (Samples.services (Some Samples.aya)
                 (Samples.answering (Returned Samples.not_found)
                    (Returned Samples.posts) (Returned Samples.profile)))
              Samples.request Samples.params "123" Samples.world0
              (mkHttpResponse true (Returned Samples.not_found))
              Samples.not_found)
    as (value & Hrun & Hcookie & _).
  - split; [reflexivity | discriminate].
  - exists Samples.aya. split; reflexivity.
  - split; reflexivity.
  - reflexivity.
  - reflexivity.
  - rewrite Hrun, (Hcookie "sb-access-token=abc" eq_refl). reflexivity.
Defined.

(** ** Failures on the read routes *)

(** When the profile lookup of the user-detail loader is answered with
    [{error: "database unavailable"}], the loader throws
    [Error("User not found")], which does not show the failure's message. *)
Lemma user_lookup_failure_message_not_surfaced :
  fst (UserDetail.loader
         (Samples.services None
            (Samples.answering (Returned Samples.generic_error)
               (Returned Samples.posts) (Returned Samples.profile)))
         Samples.anonymous_request Samples.params Samples.world0)
  = Threw (new_Error "User not found")
  /\ prop "error" Samples.generic_error = Some (JStr "database unavailable")
  /\ contains "database unavailable" "User not found" = false.
Proof. repeat split. Qed.

(** What the read routes do with the failures their own classifier
    recognises, other than a not-found on the self-profile lookup: they throw.
    The profile-edit loader throws an [Error] whose message is the failure's
    [message]; a failed posts-list fetch throws an [Error] whose message is
    ["Failed to fetch posts: "] followed by the failure's [error]; a failed
    profile lookup of the user-detail loader throws the fixed
    [Error("User not found")]. *)
Theorem read_route_failures_are_thrown (params : Params) (u : string) :
  route_subject params u ->
  (forall svc request w response payload,
      is_self svc request u ->
      answers svc (calls w) (fetch_user u) response payload ->
      UserEdit.isApiError payload = true ->
      prop "code" payload <> Some (JStr "NotFoundError") ->
      fst (UserEdit.loader svc request params w)
        = Threw (new_Error_of (prop "message" payload))
      /\ forall m, prop "message" payload = Some (JStr m) ->
           fst (UserEdit.loader svc request params w) = Threw (new_Error m))
  /\ (forall svc request w response payload,
        answers svc (calls w) (fetch_user u) response payload ->
        UserDetail.isErrorResponse payload = Returned true ->
        fst (UserDetail.loader svc request params w)
          = Threw (new_Error "User not found"))
  /\ (forall svc request w response userData response' payload,
        answers svc (calls w) (fetch_user u) response userData ->
        UserDetail.isErrorResponse userData = Returned false ->
        answers svc (calls w ++ [fetch_user u]) (fetch_posts u) response' payload ->
        UserDetail.isErrorResponse payload = Returned true ->
        fst (UserDetail.loader svc request params w)
          = Threw (new_Error
                     ("Failed to fetch posts: "
                        ++ UserDetail.interpolate (prop "error" payload)))
        /\ forall e, prop "error" payload = Some (JStr e) ->
             fst (UserDetail.loader svc request params w)
               = Threw (new_Error ("Failed to fetch posts: " ++ e))).
Proof.
  intros Hroute. split; [| split].
  - intros svc request w response payload Hself [Hcall Hbody] Herr Hcode.
    assert (Hrun : fst (UserEdit.loader svc request params w)
                   = Threw (new_Error_of (prop "message" payload))).
    { enter_loader Hroute Hself.
      unfold fetch_user in Hcall. rewrite Hcall. cbn. rewrite Hbody, Herr.
      apply strict_eq_string_false in Hcode. rewrite Hcode. reflexivity. }
    split; [exact Hrun |].
    intros m Hm. rewrite Hrun, Hm. reflexivity.
  - intros svc request w response payload [Hcall Hbody] Herr.
    apply route_subject_truthy in Hroute.
    unfold UserDetail.loader. rewrite Hroute.
    cbn [bind ret raise Monad_Handler Exc_Handler].
    unfold api_call, response_json, lift.
    unfold fetch_user in Hcall. rewrite Hcall. cbn. rewrite Hbody, Herr.
    reflexivity.
  - intros svc request w response userData response' payload
      [Hcall Hbody] Hok [Hcall' Hbody'] Herr.
    assert (Hrun : fst (UserDetail.loader svc request params w)
                   = Threw (new_Error
                              ("Failed to fetch posts: "
                                 ++ UserDetail.interpolate (prop "error" payload)))).
    { apply route_subject_truthy in Hroute.
      unfold UserDetail.loader. rewrite Hroute.
      cbn [bind ret raise Monad_Handler Exc_Handler].
      unfold api_call, response_json, lift.
      unfold fetch_user in Hcall. rewrite Hcall. cbn. rewrite Hbody, Hok.
      unfold fetch_user, fetch_posts in Hcall'. cbn. rewrite Hcall'. cbn.
      rewrite Hbody', Herr. reflexivity. }
    split; [exact Hrun |].
    intros e He. rewrite Hrun, He. reflexivity.
Qed.

Lemma read_route_failures_are_thrown_witness :
  fst (UserEdit.loader
         (Samples.services (Some Samples.aya)
            (Samples.answering (Returned Samples.validation_error)
               (Returned Samples.posts) (Returned Samples.profile)))
         Samples.request Samples.params Samples.world0)
    = Threw (new_Error "name required")
  /\ fst (UserDetail.loader
            (Samples.services None
               (Samples.answering (Returned Samples.generic_error)
                  (Returned Samples.posts) (Returned Samples.profile)))
            Samples.anonymous_request Samples.params Samples.world0)
     = Threw (new_Error "User not found")
  /\ fst (UserDetail.loader
            (Samples.services None
               (Samples.answering (Returned Samples.profile)
                  (Returned Samples.generic_error) (Returned Samples.profile)))
            Samples.anonymous_request Samples.params Samples.world0)
     = Threw (new_Error "Failed to fetch posts: database unavailable").
Proof.
  destruct (read_route_failures_are_thrown Samples.params "123")
    as (Hedit & Hlookup & Hposts).
  - split; [reflexivity | discriminate].
  - split; [| split].
    + apply (Hedit _ Samples.request Samples.world0
               (mkHttpResponse true (Returned Samples.validation_error))
               Samples.validation_error).
      * exists Samples.aya. split; reflexivity.
      * split; reflexivity.
      * reflexivity.
      * discriminate.
      * reflexivity.
    + apply (Hlookup _ Samples.anonymous_request Samples.world0
               (mkHttpResponse true (Returned Samples.generic_error))
               Samples.generic_error).
      * split; reflexivity.
      * reflexivity.
    + apply (Hposts _ Samples.anonymous_request Samples.world0
               (mkHttpResponse true (Returned Samples.profile)) Samples.profile
               (mkHttpResponse true (Returned Samples.generic_error))
               Samples.generic_error).
      * split; reflexivity.
      * reflexivity.
      * split; reflexivity.
      * reflexivity.
      * reflexivity.
Defined.

(** C6 fails on the code.  The two read routes ask the same endpoint for
    the profile and classify its answer differently, so that each renders as
    data a failure the other raises.  Answered with
    [{code: "InternalError", message: "database unavailable"}], the
    profile-edit loader raises an [Error] with that message, while the
    user-detail loader goes on to fetch the posts and returns the failure
    payload as [pageUser].  Answered with [{error: "database unavailable"}],
    the user-detail loader raises, with the fixed message ["User not found"]
    in place of the failure's, while the profile-edit loader returns the
    failure payload as [pageUser].  A posts-list answer shaped [{error}] is
    raised with its message. *)
Theorem read_routes_render_a_failure_the_other_raises :
  let coded := JObj [("code", JStr "InternalError");
                     ("message", JStr "database unavailable")] in
  let svc_coded :=
    Samples.services (Some Samples.aya)
      (Samples.answering (Returned coded) (Returned Samples.posts)
         (Returned Samples.profile)) in
  let svc_generic :=
    Samples.services (Some Samples.aya)
      (Samples.answering (Returned Samples.generic_error) (Returned Samples.posts)
         (Returned Samples.profile)) in
  let svc_posts :=
    Samples.services (Some Samples.aya)
      (Samples.answering (Returned Samples.profile)
         (Returned Samples.generic_error) (Returned Samples.profile)) in
  UserEdit.loader svc_coded Samples.page_load Samples.params Samples.world0
    = (Threw (new_Error "database unavailable"),
       mkWorld [fetch_user "123"] [])
  /\ UserDetail.loader svc_coded Samples.page_load Samples.params Samples.world0
     = (Returned (Data [("pageUser", Some coded);
                        ("postsData", Some Samples.posts)]),
        mkWorld [fetch_user "123"; fetch_posts "123"] [])
  /\ UserDetail.loader svc_generic Samples.page_load Samples.params Samples.world0
     = (Threw (new_Error "User not found"), mkWorld [fetch_user "123"] [])
  /\ UserEdit.loader svc_generic Samples.page_load Samples.params Samples.world0
     = (Returned (Data [("pageUser", Some Samples.generic_error)]),
        mkWorld [fetch_user "123"] [])
  /\ UserDetail.loader svc_posts Samples.page_load Samples.params Samples.world0
     = (Threw (new_Error "Failed to fetch posts: database unavailable"),
        mkWorld [fetch_user "123"; fetch_posts "123"] []).
Proof. repeat split. Qed.

(** ** The profile-edit action *)

Lemma edit_action_accepted
    (svc : Services) (request : Request) (params : Params) (u : string)
    (formData : FormData) (w : World) :
  route_subject params u ->
  body request = Returned formData ->
  is_self svc request u ->
  accepts svc (calls w) (patch_user u formData) ->
  legal_location svc ("/users/" ++ u) ->
  UserEdit.action svc request params w
  = (Returned (Redirect ("/users/" ++ u) []),
     mkWorld (calls w ++ [patch_user u formData]) (console w)).
Proof.
  intros Hroute Hform Hself (response & payload & [Hcall Hbody] & Hok & Hclean)
    Hlegal.
  enter_action Hform Hroute Hself.
  unfold patch_user in Hcall. rewrite Hcall. cbn.
  rewrite Hbody, Hok, Hclean. cbn. unfold redirect.
  unfold legal_location in Hlegal. cbn in Hlegal. rewrite Hlegal. reflexivity.
Qed.

(** When the backend accepts the patch but the platform refuses the path as
    a [Location], the throw of [redirect] happens inside the [try]: it is
    logged and turned into [{error}] like a transport failure. *)
Lemma edit_action_redirect_refused
    (svc : Services) (request : Request) (params : Params) (u : string)
    (formData : FormData) (w : World) (t : Thrown) :
  route_subject params u ->
  body request = Returned formData ->
  is_self svc request u ->
  accepts svc (calls w) (patch_user u formData) ->
  header_value_error svc ("/users/" ++ u) = Some t ->
  UserEdit.action svc request params w
  = (Returned (Data [("error", Some (JStr (UserEdit.caught_message t)))]),
     mkWorld (calls w ++ [patch_user u formData])
       (console w ++ [("Error updating user:", t)])).
Proof.
  intros Hroute Hform Hself (response & payload & [Hcall Hbody] & Hok & Hclean)
    Hrefused.
  enter_action Hform Hroute Hself.
  unfold patch_user in Hcall. rewrite Hcall. cbn.
  rewrite Hbody, Hok, Hclean. cbn. unfold redirect.
  cbn in Hrefused. rewrite Hrefused. reflexivity.
Qed.

(** Past the authorization check the action always returns: whatever the
    backend call and [redirect] do ends in a result, never in a throw. *)
Lemma edit_action_returns
    (svc : Services) (request : Request) (params : Params) (u : string)
    (formData : FormData) (w : World) :
  route_subject params u ->
  body request = Returned formData ->
  is_self svc request u ->
  exists result, fst (UserEdit.action svc request params w) = Returned result.
Proof.
  intros Hroute Hform Hself. enter_action Hform Hroute Hself.
  destruct (backend svc (calls w) _) as [response | t]; cbn;
    [| eexists; reflexivity].
  destruct (json_result response) as [payload | t]; cbn;
    [| eexists; reflexivity].
  destruct (ok response), (UserEdit.isApiError payload); cbn;
    try (eexists; reflexivity).
  unfold redirect. destruct (header_value_error svc _); cbn;
    eexists; reflexivity.
Qed.

(** C7: once the caller is authorized, a transport failure of the mutation's
    backend call (the request throws, or the body of the response cannot be
    decoded) is caught: the action returns [{error}] with the message of the
    thrown [Error], or with ["Failed to update profile"] when what was thrown
    is not an [Error]; the action does not throw. *)
Theorem edit_action_catches_transport_failures
    (svc : Services) (request : Request) (params : Params) (u : string)
    (formData : FormData) (w : World) (t : Thrown) :
  route_subject params u ->
  body request = Returned formData ->
  is_self svc request u ->
  transport_failure svc (calls w) (patch_user u formData) t ->
  fst (UserEdit.action svc request params w)
    = Returned (Data [("error", Some (JStr (UserEdit.caught_message t)))])
  /\ (forall name message, t = JsError name message ->
        fst (UserEdit.action svc request params w)
          = Returned (Data [("error", Some (JStr message))]))
  /\ (forall v, t = JsValue v ->
        fst (UserEdit.action svc request params w)
          = Returned (Data [("error", Some (JStr "Failed to update profile"))]))
  /\ (forall t', fst (UserEdit.action svc request params w) <> Threw t').
Proof.
  intros Hroute Hform Hself Hfail.
  assert (Hrun : fst (UserEdit.action svc request params w)
                 = Returned (Data [("error", Some (JStr (UserEdit.caught_message t)))])).
  { enter_action Hform Hroute Hself.
    destruct Hfail as [Hcall | (response & Hcall & Hbody)];
      unfold patch_user in Hcall; rewrite Hcall; cbn;
      [| rewrite Hbody]; reflexivity. }
  repeat split.
  - exact Hrun.
  - intros name message ->. exact Hrun.
  - intros v ->. exact Hrun.
  - intros t'. rewrite Hrun. discriminate.
Qed.

Lemma edit_action_catches_transport_failures_witness :
  fst (UserEdit.action (Samples.services (Some Samples.aya) Samples.unreachable)
         Samples.request Samples.params Samples.world0)
  = Returned (Data [("error", Some (JStr "fetch failed"))]).
Proof.
  apply (edit_action_catches_transport_failures
           (Samples.services (Some Samples.aya) Samples.unreachable)
           Samples.request Samples.params "123" Samples.patch Samples.world0
           (JsError "TypeError" "fetch failed")).
  - split; [reflexivity | discriminate].
  - reflexivity.
  - exists Samples.aya. split; reflexivity.
  - left. reflexivity.
Defined.

(** C8: when the backend accepts the patch both times (and the path
    [/users/{userId}] is a legal [Location], so that [redirect] returns),
    submitting the same form twice yields two redirects to
    [/users/{userId}]; each submission issues the one PATCH call and nothing
    else, so the second run adds to the world exactly what the first did. *)
Theorem edit_action_repeat_submission
    (svc : Services) (request : Request) (params : Params) (u : string)
    (formData : FormData) (w : World) :
  route_subject params u ->
  body request = Returned formData ->
  is_self svc request u ->
  legal_location svc ("/users/" ++ u) ->
  accepts svc (calls w) (patch_user u formData) ->
  accepts svc (calls w ++ [patch_user u formData]) (patch_user u formData) ->
  let first := UserEdit.action svc request params w in
  let second := UserEdit.action svc request params (snd first) in
  fst first = Returned (Redirect ("/users/" ++ u) [])
  /\ fst second = Returned (Redirect ("/users/" ++ u) [])
  /\ calls (snd first) = (calls w ++ [patch_user u formData])%list
  /\ calls (snd second) = (calls (snd first) ++ [patch_user u formData])%list
  /\ console (snd second) = console w.
Proof.
  intros Hroute Hform Hself Hlegal Hfirst Hsecond first second.
  assert (E1 : first = (Returned (Redirect ("/users/" ++ u) []),
                        mkWorld (calls w ++ [patch_user u formData]) (console w)))
    by (apply edit_action_accepted; assumption).
  assert (E2 : second
               = (Returned (Redirect ("/users/" ++ u) []),
                  mkWorld ((calls w ++ [patch_user u formData])
                             ++ [patch_user u formData]) (console w))).
  { subst second. rewrite E1.
    apply (edit_action_accepted svc request params u formData
             (mkWorld (calls w ++ [patch_user u formData]) (console w)));
      assumption. }
  rewrite E2, E1. cbn. repeat split.
Qed.

Lemma edit_action_repeat_submission_witness :
  let svc := Samples.services (Some Samples.aya) Samples.healthy in
  let first := UserEdit.action svc Samples.request Samples.params Samples.world0 in
  let second := UserEdit.action svc Samples.request Samples.params (snd first) in
  fst first = Returned (Redirect "/users/123" [])
  /\ fst second = Returned (Redirect "/users/123" [])
  /\ calls (snd first) = [patch_user "123" Samples.patch]
  /\ calls (snd second)
     = (calls (snd first) ++ [patch_user "123" Samples.patch])%list
  /\ console (snd second) = [].
Proof.
  apply (edit_action_repeat_submission
           (Samples.services (Some Samples.aya) Samples.healthy)
           Samples.request Samples.params "123" Samples.patch Samples.world0).
  - split; [reflexivity | discriminate].
  - reflexivity.
  - exists Samples.aya. split; reflexivity.
  - reflexivity.
  - exists (mkHttpResponse true (Returned Samples.profile)), Samples.profile.
    repeat split.
  - exists (mkHttpResponse true (Returned Samples.profile)), Samples.profile.
    repeat split.
Defined.

(** C9: in the profile-edit action, a response with status ok whose body
    has a [code] field is a failure: the action returns [{error: message}]
    and no redirect.  A redirect is returned only when the backend answered
    with status ok and a body that does not classify as an error, and it is
    the redirect to [/users/{userId}]; it is returned whenever that is so and
    [redirect] takes the path. *)
Theorem edit_action_ok_status_with_code_is_failure
    (svc : Services) (request : Request) (params : Params) (u : string)
    (formData : FormData) (w : World) :
  route_subject params u ->
  body request = Returned formData ->
  is_self svc request u ->
  (forall response fields c,
      answers svc (calls w) (patch_user u formData) response (JObj fields) ->
      ok response = true ->
      lookup "code" fields = Some c ->
      fst (UserEdit.action svc request params w)
        = Returned (Data [("error", lookup "message" fields)]))
  /\ (forall target hs,
        fst (UserEdit.action svc request params w)
          = Returned (Redirect target hs)
        <-> target = "/users/" ++ u /\ hs = []
            /\ accepts svc (calls w) (patch_user u formData)
            /\ legal_location svc ("/users/" ++ u)).
Proof.
  intros Hroute Hform Hself. split.
  - intros response fields c [Hcall Hbody] Hok Hcode.
    enter_action Hform Hroute Hself.
    unfold patch_user in Hcall. rewrite Hcall. cbn.
    rewrite Hbody, Hok. cbn. unfold has_property. rewrite Hcode. reflexivity.
  - intros target hs. split.
    + intros Hrun.
      destruct (backend svc (calls w) (patch_user u formData))
        as [response | t] eqn:Hcall.
      2:{ revert Hrun. enter_action Hform Hroute Hself.
          unfold patch_user in Hcall. rewrite Hcall. cbn. discriminate. }
      destruct (json_result response) as [payload | t] eqn:Hbody.
      2:{ revert Hrun. enter_action Hform Hroute Hself.
          unfold patch_user in Hcall. rewrite Hcall. cbn. rewrite Hbody.
          cbn. discriminate. }
      revert Hrun. enter_action Hform Hroute Hself.
      pose proof Hcall as Hcall'. unfold patch_user in Hcall'.
      rewrite Hcall'. cbn. rewrite Hbody.
      destruct (ok response) eqn:Hok, (UserEdit.isApiError payload) eqn:Hclean;
        cbn; try discriminate.
      unfold redirect, legal_location.
      destruct (header_value_error svc ("/users/" ++ u)) as [t |] eqn:Hlegal;
        cbn in Hlegal |- *; rewrite Hlegal; cbn; [discriminate |].
      intros [= <- <-]. repeat split.
      exists response, payload. repeat split; assumption.
    + intros (-> & -> & Hacc & Hlegal).
      rewrite (edit_action_accepted svc request params u formData w
                 Hroute Hform Hself Hacc Hlegal).
      reflexivity.
Qed.

Lemma edit_action_ok_status_with_code_is_failure_witness :
  fst (UserEdit.action
         (Samples.services (Some Samples.aya)
            (Samples.answering (Returned Samples.profile) (Returned Samples.posts)
               (Returned Samples.validation_error)))
         (mkRequest (Some "sb-access-token=abc")
            (Returned [("name", ""); ("bio", "hello")]))
         Samples.params Samples.world0)
  = Returned (Data [("error", Some (JStr "name required"))]).
Proof.
  destruct (edit_action_ok_status_with_code_is_failure
              (Samples.services (Some Samples.aya)
                 (Samples.answering (Returned Samples.profile)
                    (Returned Samples.posts) (Returned Samples.validation_error)))
              (mkRequest (Some "sb-access-token=abc")
                 (Returned [("name", ""); ("bio", "hello")]))
              Samples.params "123" [("name", ""); ("bio", "hello")]
              Samples.world0)
    as [Hfail _].
  - split; [reflexivity | discriminate].
  - reflexivity.
  - exists Samples.aya. split; reflexivity.
  - apply (Hfail (mkHttpResponse true (Returned Samples.validation_error))
             [("code", JStr "ValidationError"); ("message", JStr "name required")]
             (JStr "ValidationError")).
    + split; reflexivity.
    + reflexivity.
    + reflexivity.
Defined.

(** ** The user-detail loader and its posts query *)

(** The argument of every call the user-detail loader issues has [param]
    only: the [searchParams] the loader fills are handed to no call. *)
Lemma user_detail_calls_without_query
    (svc : Services) (request : Request) (params : Params) (w : World) :
  Forall (fun c => query c = None) (calls w) ->
  Forall (fun c => query c = None)
    (calls (snd (UserDetail.loader svc request params w))).
Proof.
  intros Hw. unfold UserDetail.loader.
  destruct (truthy_string (userId params)) as [u |]; [| exact Hw].
  cbn [bind ret raise Monad_Handler Exc_Handler].
  unfold api_call, response_json, lift.
  assert (H1 : Forall (fun c => query c = None)
                 (calls w ++ [mkApiCall users_get [("userId", u)] None None])).
  { apply Forall_app. split; [exact Hw | repeat constructor]. }
  destruct (backend svc (calls w) _) as [response | t]; cbn; [| exact H1].
  destruct (json_result response) as [userData | t]; cbn; [| exact H1].
  destruct (UserDetail.isErrorResponse userData) as [[|] | t]; cbn;
    try exact H1.
  assert (H2 : Forall (fun c => query c = None)
                 ((calls w ++ [mkApiCall users_get [("userId", u)] None None])
                    ++ [mkApiCall users_posts_get [("userId", u)] None None])).
  { apply Forall_app. split; [exact H1 | repeat constructor]. }
  destruct (backend svc _ _) as [response' | t]; cbn; [| exact H2].
  destruct (json_result response') as [data | t]; cbn; [| exact H2].
  destruct (UserDetail.isErrorResponse data) as [[|] | t]; cbn; exact H2.
Qed.

(** C1 at an anonymous request to [/users/123]: the loader renders profile
    and posts, and the two calls it issued are the profile fetch and a posts
    fetch whose argument has no [query]: [publicOnly=true] was set on
    [searchParams] and sent nowhere. *)
Theorem user_detail_posts_fetch_has_no_query :
  UserDetail.loader (Samples.services None Samples.healthy)
    Samples.anonymous_request Samples.params Samples.world0
  = (Returned (Data [("pageUser", Some Samples.profile);
                     ("postsData", Some Samples.posts)]),
     mkWorld [mkApiCall users_get [("userId", "123")] None None;
              mkApiCall users_posts_get [("userId", "123")] None None] [])
  /\ UserDetail.set "publicOnly" "true" [] = [("publicOnly", "true")]
  /\ query (mkApiCall users_posts_get [("userId", "123")] None None) = None.
Proof. repeat split. Qed.

(** ** Session headers *)

(** C2, as stated, fails: the session exchange asks for a refreshed cookie,
    the profile-edit loader renders, and what it returns carries no header. *)
Lemma session_headers_dropped_on_render :
  let svc := Samples.services (Some Samples.aya) Samples.healthy in
  let outcome :=
    fst (UserEdit.loader svc Samples.request Samples.params Samples.world0) in
  session_headers svc Samples.request = Samples.fresh_session
  /\ outcome = Returned (Data [("pageUser", Some Samples.profile)])
  /\ outcome_headers outcome = []
  /\ ~ incl (session_headers svc Samples.request) (outcome_headers outcome).
Proof.
  cbn. repeat split. intros H. exact (H _ (or_introl eq_refl)).
Qed.

(** C2, amended: the session headers reach the response on one path only,
    the redirect of the signup action, which is given the [headers] of
    [signInWithGoogle], the session headers.  The not-found redirect of the
    profile-edit loader carries one [Set-Cookie] header with the request's
    [Cookie] value; every other outcome of the four handlers (rendered data,
    [{error}] results, the redirect after a successful edit, thrown errors)
    carries no header. *)
Theorem session_headers_reach_only_the_signup_redirect
    (svc : Services) (request : Request) (params : Params) (w : World) :
  match fst (Signup.action svc request w) with
  | Returned (Redirect _ hs) => hs = session_headers svc request
  | _ => True
  end
  /\ match fst (UserEdit.loader svc request params w) with
     | Returned (Redirect target hs) =>
         target = "/complete-profile"
         /\ hs = [("Set-Cookie", or_else (cookie request) "")]
     | _ => True
     end
  /\ (outcome_headers (fst (UserEdit.loader svc request params w)) = []
      \/ outcome_headers (fst (UserEdit.loader svc request params w))
         = [("Set-Cookie", or_else (cookie request) "")])
  /\ outcome_headers (fst (UserEdit.action svc request params w)) = []
  /\ outcome_headers (fst (UserDetail.loader svc request params w)) = [].
Proof.
  split; [| split; [| split; [| split]]].
  - unfold Signup.action.
    cbn [bind ret Monad_Handler]. unfold request_formData, lift.
    destruct (body request) as [formData | t]; [| exact I].
    destruct (is_string (formData_get formData "provider") "google");
      [| exact I].
    destruct (truthy_string (Some (Auth.error (Auth.signInWithGoogle svc request))));
      [exact I |].
    destruct (truthy_string
                (Signup.data_url (Auth.data (Auth.signInWithGoogle svc request))))
      as [target |]; [| exact I].
    unfold redirect. destruct (header_value_error svc target);
      [exact I | reflexivity].
  - unfold UserEdit.loader.
    destruct (truthy_string (userId params)) as [u |]; [| exact I].
    destruct (not_self (getUser svc request) u); [exact I |].
    cbn [bind ret raise Monad_Handler Exc_Handler].
    unfold api_call, response_json, lift.
    destruct (backend svc (calls w) _) as [response | t]; cbn; [| exact I].
    destruct (json_result response) as [userData | t]; cbn; [| exact I].
    destruct (UserEdit.isApiError userData); [| exact I].
    destruct (strict_eq_string _ _); cbn; [split; reflexivity | exact I].
  - unfold UserEdit.loader.
    destruct (truthy_string (userId params)) as [u |]; [| left; reflexivity].
    destruct (not_self (getUser svc request) u); [left; reflexivity |].
    cbn [bind ret raise Monad_Handler Exc_Handler].
    unfold api_call, response_json, lift.
    destruct (backend svc (calls w) _) as [response | t]; cbn;
      [| left; reflexivity].
    destruct (json_result response) as [userData | t]; cbn;
      [| left; reflexivity].
    destruct (UserEdit.isApiError userData); [| left; reflexivity].
    destruct (strict_eq_string _ _); cbn; [right | left]; reflexivity.
  - unfold UserEdit.action.
    cbn [bind Monad_Handler]. unfold request_formData, lift.
    destruct (body request) as [formData | t]; [| reflexivity].
    destruct (truthy_string (userId params)) as [u |]; [| reflexivity].
    destruct (not_self (getUser svc request) u); [reflexivity |].
    cbn [bind ret raise catch Monad_Handler Exc_Handler].
    unfold api_call, response_json, lift, console_error.
    destruct (backend svc (calls w) _) as [response | t]; cbn; [| reflexivity].
    destruct (json_result response) as [payload | t]; cbn; [| reflexivity].
    destruct (ok response), (UserEdit.isApiError payload); try reflexivity.
    unfold redirect. destruct (header_value_error svc _); reflexivity.
  - unfold UserDetail.loader.
    destruct (truthy_string (userId params)) as [u |]; [| reflexivity].
    cbn [bind ret raise Monad_Handler Exc_Handler].
    unfold api_call, response_json, lift.
    destruct (backend svc (calls w) _) as [response | t]; cbn; [| reflexivity].
    destruct (json_result response) as [userData | t]; cbn; [| reflexivity].
    destruct (UserDetail.isErrorResponse userData) as [[|] | t]; cbn;
      try reflexivity.
    destruct (backend svc _ _) as [response' | t]; cbn; [| reflexivity].
    destruct (json_result response') as [data | t]; cbn; [| reflexivity].
    destruct (UserDetail.isErrorResponse data) as [[|] | t]; reflexivity.
Qed.

(** The one path on which the session headers travel: the signup redirect. *)
Example signup_redirect_carries_session_headers :
  fst (Signup.action Samples.oauth_services Samples.signup_request Samples.world0)
  = Returned (Redirect "https://accounts.example/o/oauth2?p=google"
                Samples.fresh_session).
Proof. reflexivity. Qed.

(** When the OAuth exchange fails without data, the signup action returns
    the provider's message as a plain [{error}] object, with no header. *)
Example signup_failure_has_no_headers :
  fst (Signup.action (Samples.services None Samples.healthy)
         Samples.signup_request Samples.world0)
  = Returned (Data [("error", Some (JStr "provider disabled"))])
  /\ outcome_headers
       (fst (Signup.action (Samples.services None Samples.healthy)
               Samples.signup_request Samples.world0)) = [].
Proof. split; reflexivity. Qed.

(** * Further properties of the handlers *)

Lemma truthy_string_Some (s : option string) (u : string) :
  truthy_string s = Some u -> s = Some u /\ u <> "".
Proof.
  destruct s as [[| c s'] |]; cbn; try discriminate.
  intros [= <-]. split; [reflexivity | discriminate].
Qed.

Lemma exchange_answers (svc : Services) (history : list ApiCall)
    (call : ApiCall) (response : HttpResponse) (payload : json) :
  exchange svc history call = Returned (response, payload) <->
  answers svc history call response payload.
Proof.
  unfold exchange, answers. split.
  - destruct (backend svc history call) as [r | t]; [| discriminate].
    destruct (json_result r) as [j | t] eqn:E; [| discriminate].
    intros [= <- <-]. split; [reflexivity | exact E].
  - intros [-> ->]. reflexivity.
Qed.

Lemma exchange_transport_failure (svc : Services) (history : list ApiCall)
    (call : ApiCall) (t : Thrown) :
  exchange svc history call = Threw t <->
  transport_failure svc history call t.
Proof.
  unfold exchange, transport_failure. split.
  - destruct (backend svc history call) as [r | t'] eqn:E.
    + destruct (json_result r) as [j | t''] eqn:E'; [discriminate |].
      intros [= <-]. right. exists r. split; [reflexivity | exact E'].
    + intros [= <-]. left. reflexivity.
  - intros [-> | (r & -> & ->)]; reflexivity.
Qed.

(** Past the guard of the user-detail loader, up to its first call. *)
Ltac enter_detail Hroute :=
  unfold UserDetail.loader;
  rewrite (route_subject_truthy _ _ Hroute);
  cbn [bind ret raise catch Monad_Handler Exc_Handler];
  unfold api_call, response_json, lift.

(** X1: a request without a usable [params.userId] (missing or empty) is
    refused with [Error("User ID is required")], before the identity is
    looked at and before any backend call: by the two loaders on any
    request, and by the profile-edit action once [request.formData()], which
    it awaits first, has decoded the form.  Whatever the body, the action
    fails and issues no call. *)
Theorem handlers_require_user_id
    (svc : Services) (request : Request) (params : Params) (w : World) :
  userId params = None \/ userId params = Some "" ->
  UserEdit.loader svc request params w
    = (Threw (new_Error "User ID is required"), w)
  /\ UserDetail.loader svc request params w
     = (Threw (new_Error "User ID is required"), w)
  /\ (forall formData,
        body request = Returned formData ->
        UserEdit.action svc request params w
        = (Threw (new_Error "User ID is required"), w))
  /\ (exists t, UserEdit.action svc request params w = (Threw t, w)).
Proof.
  intros Hid.
  assert (Hfalsy : truthy_string (userId params) = None)
    by (destruct Hid as [-> | ->]; reflexivity).
  unfold UserEdit.loader, UserEdit.action, UserDetail.loader.
  cbn [bind Monad_Handler]. unfold request_formData, lift.
  rewrite Hfalsy. repeat split.
  - intros formData ->. reflexivity.
  - destruct (body request) as [formData | t]; eexists; reflexivity.
Qed.

Lemma handlers_require_user_id_witness :
  UserEdit.loader (Samples.services (Some Samples.aya) Samples.healthy)
    Samples.anonymous_request (mkParams (Some "")) Samples.world0
    = (Threw (new_Error "User ID is required"), Samples.world0)
  /\ UserDetail.loader (Samples.services (Some Samples.aya) Samples.healthy)
       Samples.anonymous_request (mkParams (Some "")) Samples.world0
     = (Threw (new_Error "User ID is required"), Samples.world0)
  /\ UserEdit.action (Samples.services (Some Samples.aya) Samples.healthy)
       Samples.request (mkParams (Some "")) Samples.world0
     = (Threw (new_Error "User ID is required"), Samples.world0).
Proof.
  destruct (handlers_require_user_id
              (Samples.services (Some Samples.aya) Samples.healthy)
              Samples.anonymous_request (mkParams (Some "")) Samples.world0)
    as (Hedit & Hdetail & _); [right; reflexivity |].
  destruct (handlers_require_user_id
              (Samples.services (Some Samples.aya) Samples.healthy)
              Samples.request (mkParams (Some "")) Samples.world0)
    as (_ & _ & Haction & _); [right; reflexivity |].
  split; [exact Hedit | split; [exact Hdetail |]].
  apply (Haction Samples.patch). reflexivity.
Defined.

(** X2: the profile-edit loader has no [try]: when its backend call fails in
    transport, the loader throws the very value the call threw, after that
    one call. *)
Theorem edit_loader_propagates_transport_failure
    (svc : Services) (request : Request) (params : Params) (u : string)
    (w : World) (t : Thrown) :
  route_subject params u ->
  is_self svc request u ->
  transport_failure svc (calls w) (fetch_user u) t ->
  UserEdit.loader svc request params w
  = (Threw t, mkWorld (calls w ++ [fetch_user u]) (console w)).
Proof.
  intros Hroute Hself Hfail. enter_loader Hroute Hself.
  destruct Hfail as [Hcall | (response & Hcall & Hbody)];
    unfold fetch_user in *; rewrite Hcall; cbn; [| rewrite Hbody]; reflexivity.
Qed.

Lemma edit_loader_propagates_transport_failure_witness :
  UserEdit.loader (Samples.services (Some Samples.aya) Samples.unreachable)
    Samples.request Samples.params Samples.world0
  = (Threw (JsError "TypeError" "fetch failed"),
     mkWorld [fetch_user "123"] []).
Proof.
  apply (edit_loader_propagates_transport_failure
           (Samples.services (Some Samples.aya) Samples.unreachable)
           Samples.request Samples.params "123" Samples.world0
           (JsError "TypeError" "fetch failed")).
  - split; [reflexivity | discriminate].
  - exists Samples.aya. split; reflexivity.
  - left. reflexivity.
Defined.

(** X3: the user-detail loader has no [try] either: a transport failure of
    the profile lookup, or of the posts fetch after a profile that was found,
    is thrown on unchanged. *)
Theorem user_detail_loader_propagates_transport_failure
    (svc : Services) (request : Request) (params : Params) (u : string)
    (w : World) (t : Thrown) :
  route_subject params u ->
  (transport_failure svc (calls w) (fetch_user u) t
   \/ exists userData,
        profile_found svc (calls w) u userData
        /\ transport_failure svc (calls w ++ [fetch_user u]) (fetch_posts u) t) ->
  fst (UserDetail.loader svc request params w) = Threw t.
Proof.
  intros Hroute Hfail. enter_detail Hroute.
  destruct Hfail as [Hfail | (userData & [(response & Hcall & Hbody) Hclean] & Hfail)].
  - destruct Hfail as [Hcall | (response & Hcall & Hbody)];
      unfold fetch_user in *; rewrite Hcall; cbn; [| rewrite Hbody]; reflexivity.
  - unfold fetch_user in *. rewrite Hcall. cbn. rewrite Hbody, Hclean. cbn.
    destruct Hfail as [Hcall' | (response' & Hcall' & Hbody')];
      unfold fetch_posts in *; rewrite Hcall'; cbn; [| rewrite Hbody'];
      reflexivity.
Qed.

Lemma user_detail_loader_propagates_transport_failure_witness :
  fst (UserDetail.loader
         (Samples.services None
            (Samples.answering (Returned Samples.profile)
               (Threw (JsError "SyntaxError" "Unexpected token < in JSON"))
               (Returned Samples.profile)))
         Samples.anonymous_request Samples.params Samples.world0)
  = Threw (JsError "SyntaxError" "Unexpected token < in JSON").
Proof.
  apply (user_detail_loader_propagates_transport_failure
           (Samples.services None
              (Samples.answering (Returned Samples.profile)
                 (Threw (JsError "SyntaxError" "Unexpected token < in JSON"))
                 (Returned Samples.profile)))
           Samples.anonymous_request Samples.params "123" Samples.world0).
  - split; [reflexivity | discriminate].
  - right. exists Samples.profile. split.
    + split; [| reflexivity].
      exists (mkHttpResponse true (Returned Samples.profile)). split; reflexivity.
    + right.
      exists (mkHttpResponse true
                (Threw (JsError "SyntaxError" "Unexpected token < in JSON"))).
      split; reflexivity.
Defined.

(** X4: when the backend answers the authorized profile-edit loader with a
    payload that is not an API error, the loader hands that payload to the
    page unchanged as [pageUser], whatever the status of the response, after
    exactly one call. *)
Theorem edit_loader_passes_profile_through
    (svc : Services) (request : Request) (params : Params) (u : string)
    (w : World) (response : HttpResponse) (payload : json) :
  route_subject params u ->
  is_self svc request u ->
  answers svc (calls w) (fetch_user u) response payload ->
  UserEdit.isApiError payload = false ->
  UserEdit.loader svc request params w
  = (Returned (Data [("pageUser", Some payload)]),
     mkWorld (calls w ++ [fetch_user u]) (console w)).
Proof.
  intros Hroute Hself [Hcall Hbody] Hclean. enter_loader Hroute Hself.
  unfold fetch_user in *. rewrite Hcall. cbn. rewrite Hbody, Hclean.
  reflexivity.
Qed.

Lemma edit_loader_passes_profile_through_witness :
  UserEdit.loader
    (Samples.services (Some Samples.aya)
       (fun _ _ => Returned (mkHttpResponse false (Returned Samples.generic_error))))
    Samples.request Samples.params Samples.world0
  = (Returned (Data [("pageUser", Some Samples.generic_error)]),
     mkWorld [fetch_user "123"] []).
Proof.
  apply (edit_loader_passes_profile_through
           (Samples.services (Some Samples.aya)
              (fun _ _ =>
                 Returned (mkHttpResponse false (Returned Samples.generic_error))))
           Samples.request Samples.params "123" Samples.world0
           (mkHttpResponse false (Returned Samples.generic_error))
           Samples.generic_error).
  - split; [reflexivity | discriminate].
  - exists Samples.aya. split; reflexivity.
  - split; reflexivity.
  - reflexivity.
Defined.

(** X5: what the handlers may send to the backend.  Each keeps the calls made
    before it and adds: the profile-edit loader nothing or the one profile
    fetch; the profile-edit action nothing or the one PATCH built from the
    form; the user-detail loader nothing, the profile fetch, or the profile
    fetch followed by the posts fetch; the signup action nothing. *)
Theorem handlers_call_discipline
    (svc : Services) (request : Request) (params : Params) (w : World) :
  (exists issued,
      calls (snd (UserEdit.loader svc request params w)) = (calls w ++ issued)%list
      /\ (issued = []
          \/ exists u, userId params = Some u /\ issued = [fetch_user u]))
  /\ (exists issued,
        calls (snd (UserEdit.action svc request params w)) = (calls w ++ issued)%list
        /\ (issued = []
            \/ exists u formData,
                 userId params = Some u /\ body request = Returned formData
                 /\ issued = [patch_user u formData]))
  /\ (exists issued,
        calls (snd (UserDetail.loader svc request params w)) = (calls w ++ issued)%list
        /\ (issued = []
            \/ exists u,
                 userId params = Some u
                 /\ (issued = [fetch_user u]
                     \/ issued = [fetch_user u; fetch_posts u])))
  /\ calls (snd (Signup.action svc request w)) = calls w.
Proof.
  assert (Hnil : forall l : list ApiCall, l = (l ++ [])%list)
    by (intros l; rewrite app_nil_r; reflexivity).
  split; [| split; [| split]].
  - unfold UserEdit.loader.
    destruct (truthy_string (userId params)) as [u |] eqn:Hu;
      [| exists []; split; [apply Hnil | left; reflexivity]].
    apply truthy_string_Some in Hu. destruct Hu as [Hu _].
    destruct (not_self (getUser svc request) u);
      [exists []; split; [apply Hnil | left; reflexivity] |].
    exists [fetch_user u]. split; [| right; exists u; split; [exact Hu | reflexivity]].
    cbn [bind ret raise Monad_Handler Exc_Handler].
    unfold api_call, response_json, lift, fetch_user.
    destruct (backend svc (calls w) _) as [response | t]; cbn; [| reflexivity].
    destruct (json_result response) as [userData | t]; cbn; [| reflexivity].
    destruct (UserEdit.isApiError userData); [| reflexivity].
    destruct (strict_eq_string _ _); reflexivity.
  - unfold UserEdit.action.
    cbn [bind Monad_Handler]. unfold request_formData, lift.
    destruct (body request) as [formData | t] eqn:Hform;
      [| exists []; split; [apply Hnil | left; reflexivity]].
    destruct (truthy_string (userId params)) as [u |] eqn:Hu;
      [| exists []; split; [apply Hnil | left; reflexivity]].
    apply truthy_string_Some in Hu. destruct Hu as [Hu _].
    destruct (not_self (getUser svc request) u);
      [exists []; split; [apply Hnil | left; reflexivity] |].
    exists [patch_user u formData].
    split; [| right; exists u, formData; repeat split; exact Hu].
    cbn [bind ret raise catch Monad_Handler Exc_Handler].
    unfold api_call, response_json, lift, console_error, patch_user.
    destruct (backend svc (calls w) _) as [response | t]; cbn; [| reflexivity].
    destruct (json_result response) as [payload | t]; cbn; [| reflexivity].
    destruct (ok response), (UserEdit.isApiError payload); try reflexivity.
    unfold redirect. destruct (header_value_error svc _); reflexivity.
  - unfold UserDetail.loader.
    destruct (truthy_string (userId params)) as [u |] eqn:Hu;
      [| exists []; split; [apply Hnil | left; reflexivity]].
    apply truthy_string_Some in Hu. destruct Hu as [Hu _].
    cbn [bind ret raise Monad_Handler Exc_Handler].
    unfold api_call, response_json, lift.
    assert (Hone : exists issued,
               (calls w ++ [fetch_user u])%list = (calls w ++ issued)%list
               /\ (issued = []
                   \/ exists u', userId params = Some u'
                        /\ (issued = [fetch_user u']
                            \/ issued = [fetch_user u'; fetch_posts u']))).
    { exists [fetch_user u]. split; [reflexivity |].
      right. exists u. split; [exact Hu | left; reflexivity]. }
    assert (Htwo : exists issued,
               ((calls w ++ [fetch_user u]) ++ [fetch_posts u])%list
               = (calls w ++ issued)%list
               /\ (issued = []
                   \/ exists u', userId params = Some u'
                        /\ (issued = [fetch_user u']
                            \/ issued = [fetch_user u'; fetch_posts u']))).
    { exists [fetch_user u; fetch_posts u]. split.
      - rewrite <- app_assoc. reflexivity.
      - right. exists u. split; [exact Hu | right; reflexivity]. }
    unfold fetch_user, fetch_posts in Hone, Htwo.
    destruct (backend svc (calls w) _) as [response | t]; cbn; [| exact Hone].
    destruct (json_result response) as [userData | t]; cbn; [| exact Hone].
    destruct (UserDetail.isErrorResponse userData) as [[|] | t]; cbn;
      try exact Hone.
    destruct (backend svc _ _) as [response' | t]; cbn; [| exact Htwo].
    destruct (json_result response') as [data | t]; cbn; [| exact Htwo].
    destruct (UserDetail.isErrorResponse data) as [[|] | t]; cbn; exact Htwo.
  - unfold Signup.action.
    cbn [bind ret Monad_Handler]. unfold request_formData, lift.
    destruct (body request) as [formData | t]; [| reflexivity].
    destruct (is_string (formData_get formData "provider") "google");
      [| reflexivity].
    destruct (truthy_string (Some (Auth.error (Auth.signInWithGoogle svc request))));
      [reflexivity |].
    destruct (truthy_string
                (Signup.data_url (Auth.data (Auth.signInWithGoogle svc request))))
      as [target |]; [| reflexivity].
    unfold redirect. destruct (header_value_error svc target); reflexivity.
Qed.

(** X6: when the backend answers the authorized profile-edit action with a
    status that is not ok, the action returns [{error}] and never a redirect:
    the [message] of the body when the body is an API error (so [undefined]
    when that body has no [message]), and ["Failed to update profile"]
    otherwise.  Nothing is written to the console. *)
Theorem edit_action_backend_rejection
    (svc : Services) (request : Request) (params : Params) (u : string)
    (formData : FormData) (w : World) (response : HttpResponse) (payload : json) :
  route_subject params u ->
  body request = Returned formData ->
  is_self svc request u ->
  answers svc (calls w) (patch_user u formData) response payload ->
  ok response = false ->
  UserEdit.action svc request params w
  = (Returned (Data [("error",
        if UserEdit.isApiError payload then prop "message" payload
        else Some (JStr "Failed to update profile"))]),
     mkWorld (calls w ++ [patch_user u formData]) (console w)).
Proof.
  intros Hroute Hform Hself [Hcall Hbody] Hok.
  enter_action Hform Hroute Hself.
  unfold patch_user in *. rewrite Hcall. cbn. rewrite Hbody, Hok. cbn.
  destruct (UserEdit.isApiError payload); reflexivity.
Qed.

Lemma edit_action_backend_rejection_witness :
  UserEdit.action
    (Samples.services (Some Samples.aya)
       (fun _ _ => Returned (mkHttpResponse false (Returned Samples.generic_error))))
    Samples.request Samples.params Samples.world0
  = (Returned (Data [("error", Some (JStr "Failed to update profile"))]),
     mkWorld [patch_user "123" Samples.patch] []).
Proof.
  apply (edit_action_backend_rejection
           (Samples.services (Some Samples.aya)
              (fun _ _ =>
                 Returned (mkHttpResponse false (Returned Samples.generic_error))))
           Samples.request Samples.params "123" Samples.patch Samples.world0
           (mkHttpResponse false (Returned Samples.generic_error))
           Samples.generic_error).
  - split; [reflexivity | discriminate].
  - reflexivity.
  - exists Samples.aya. split; reflexivity.
  - split; reflexivity.
  - reflexivity.
Defined.

(** X7: the authorized profile-edit action writes to the console exactly
    when something throws inside its [try], and then one entry, the label
    ["Error updating user:"] with the thrown value: when the backend exchange
    throws, or when the patch was accepted and [redirect] refuses the path.
    An answer that is rejected, and an accepted one followed by a redirect,
    leave the console as it was. *)
Theorem edit_action_logs_exactly_caught_throws
    (svc : Services) (request : Request) (params : Params) (u : string)
    (formData : FormData) (w : World) :
  route_subject params u ->
  body request = Returned formData ->
  is_self svc request u ->
  console (snd (UserEdit.action svc request params w))
  = (console w
       ++ match exchange svc (calls w) (patch_user u formData) with
          | Threw t => [("Error updating user:", t)]
          | Returned (response, payload) =>
              if ok response && negb (UserEdit.isApiError payload) then
                match header_value_error svc ("/users/" ++ u) with
                | Some t => [("Error updating user:", t)]
                | None => []
                end
              else []
          end)%list.
Proof.
  intros Hroute Hform Hself. enter_action Hform Hroute Hself.
  unfold exchange, patch_user.
  destruct (backend svc (calls w) _) as [response | t]; cbn; [| reflexivity].
  destruct (json_result response) as [payload | t]; cbn; [| reflexivity].
  destruct (ok response), (UserEdit.isApiError payload); cbn;
    rewrite ?app_nil_r; try reflexivity.
  unfold redirect. destruct (header_value_error svc _); cbn;
    rewrite ?app_nil_r; reflexivity.
Qed.

Lemma edit_action_logs_exactly_caught_throws_witness :
  console (snd (UserEdit.action
                  (Samples.services (Some Samples.aya) Samples.unreachable)
                  Samples.request Samples.params Samples.world0))
  = [("Error updating user:", JsError "TypeError" "fetch failed")].
Proof.
  apply (edit_action_logs_exactly_caught_throws
           (Samples.services (Some Samples.aya) Samples.unreachable)
           Samples.request Samples.params "123" Samples.patch Samples.world0).
  - split; [reflexivity | discriminate].
  - reflexivity.
  - exists Samples.aya. split; reflexivity.
Defined.

(** X9: when the profile lookup of the user-detail loader is answered with a
    payload that has an [error] field, the loader stops there: it throws
    after that one call and the posts are never fetched. *)
Theorem user_detail_loader_stops_at_failed_lookup
    (svc : Services) (request : Request) (params : Params) (u : string)
    (w : World) (response : HttpResponse) (payload : json) :
  route_subject params u ->
  answers svc (calls w) (fetch_user u) response payload ->
  UserDetail.isErrorResponse payload = Returned true ->
  UserDetail.loader svc request params w
  = (Threw (new_Error "User not found"),
     mkWorld (calls w ++ [fetch_user u]) (console w)).
Proof.
  intros Hroute [Hcall Hbody] Herr. enter_detail Hroute.
  unfold fetch_user in *. rewrite Hcall. cbn. rewrite Hbody, Herr. reflexivity.
Qed.

Lemma user_detail_loader_stops_at_failed_lookup_witness :
  UserDetail.loader
    (Samples.services None
       (Samples.answering (Returned Samples.generic_error)
          (Returned Samples.posts) (Returned Samples.profile)))
    Samples.anonymous_request Samples.params Samples.world0
  = (Threw (new_Error "User not found"), mkWorld [fetch_user "123"] []).
Proof.
  apply (user_detail_loader_stops_at_failed_lookup
           (Samples.services None
              (Samples.answering (Returned Samples.generic_error)
                 (Returned Samples.posts) (Returned Samples.profile)))
           Samples.anonymous_request Samples.params "123" Samples.world0
           (mkHttpResponse true (Returned Samples.generic_error))
           Samples.generic_error).
  - split; [reflexivity | discriminate].
  - split; reflexivity.
  - reflexivity.
Defined.

(** X10: when both the profile and the posts are answered with payloads
    without an [error] field, the user-detail loader hands both to the page
    unchanged, as [pageUser] and [postsData], for an anonymous caller as for
    any other, after the two fetches in that order. *)
Theorem user_detail_loader_passes_payloads_through
    (svc : Services) (request : Request) (params : Params) (u : string)
    (w : World) (userData : json) (response : HttpResponse) (data : json) :
  route_subject params u ->
  profile_found svc (calls w) u userData ->
  answers svc (calls w ++ [fetch_user u]) (fetch_posts u) response data ->
  UserDetail.isErrorResponse data = Returned false ->
  UserDetail.loader svc request params w
  = (Returned (Data [("pageUser", Some userData); ("postsData", Some data)]),
     mkWorld (calls w ++ [fetch_user u; fetch_posts u]) (console w)).
Proof.
  intros Hroute [(response0 & Hcall & Hbody) Hclean] [Hcall' Hbody'] Hclean'.
  enter_detail Hroute.
  unfold fetch_user, fetch_posts in *.
  rewrite Hcall. cbn. rewrite Hbody, Hclean. cbn.
  rewrite Hcall'. cbn. rewrite Hbody', Hclean'. cbn.
  rewrite <- app_assoc. reflexivity.
Qed.

Lemma user_detail_loader_passes_payloads_through_witness :
  UserDetail.loader (Samples.services (Some (mkUser "456")) Samples.healthy)
    Samples.request Samples.params Samples.world0
  = (Returned (Data [("pageUser", Some Samples.profile);
                     ("postsData", Some Samples.posts)]),
     mkWorld [fetch_user "123"; fetch_posts "123"] []).
Proof.
  apply (user_detail_loader_passes_payloads_through
           (Samples.services (Some (mkUser "456")) Samples.healthy)
           Samples.request Samples.params "123" Samples.world0
           Samples.profile (mkHttpResponse true (Returned Samples.posts))
           Samples.posts).
  - split; [reflexivity | discriminate].
  - split; [| reflexivity].
    exists (mkHttpResponse true (Returned Samples.profile)). split; reflexivity.
  - split; reflexivity.
  - reflexivity.
Defined.

(** X11: a body that decodes to a primitive ([null], a boolean, a number, a
    string) breaks the user-detail loader: the classifier's [in] throws a
    [TypeError], which the loader does not catch, on the profile lookup and,
    after a profile that was found, on the posts fetch. *)
Theorem user_detail_loader_throws_on_primitive_payload
    (svc : Services) (request : Request) (params : Params) (u : string)
    (w : World) (payload : json) :
  route_subject params u ->
  primitive payload = true ->
  ((exists response, answers svc (calls w) (fetch_user u) response payload)
   \/ exists userData response,
        profile_found svc (calls w) u userData
        /\ answers svc (calls w ++ [fetch_user u]) (fetch_posts u) response payload) ->
  fst (UserDetail.loader svc request params w)
  = Threw (JsError "TypeError"
             ("Cannot use 'in' operator to search for 'error' in "
                ++ to_js_string payload)).
Proof.
  intros Hroute Hprim Hcase.
  assert (Hthrow : UserDetail.isErrorResponse payload
                   = Threw (JsError "TypeError"
                              ("Cannot use 'in' operator to search for 'error' in "
                                 ++ to_js_string payload)))
    by (destruct payload; try discriminate Hprim; reflexivity).
  enter_detail Hroute.
  destruct Hcase as [(response & Hcall & Hbody)
                    | (userData & response
                       & [(response0 & Hcall & Hbody) Hclean] & Hcall' & Hbody')];
    unfold fetch_user, fetch_posts in *; rewrite Hcall; cbn; rewrite Hbody.
  - rewrite Hthrow. reflexivity.
  - rewrite Hclean. cbn. rewrite Hcall'. cbn. rewrite Hbody', Hthrow.
    reflexivity.
Qed.

Lemma user_detail_loader_throws_on_primitive_payload_witness :
  fst (UserDetail.loader
         (Samples.services None
            (Samples.answering (Returned JNull) (Returned Samples.posts)
               (Returned Samples.profile)))
         Samples.anonymous_request Samples.params Samples.world0)
  = Threw (JsError "TypeError"
             "Cannot use 'in' operator to search for 'error' in null").
Proof.
  apply (user_detail_loader_throws_on_primitive_payload
           (Samples.services None
              (Samples.answering (Returned JNull) (Returned Samples.posts)
                 (Returned Samples.profile)))
           Samples.anonymous_request Samples.params "123" Samples.world0 JNull).
  - split; [reflexivity | discriminate].
  - reflexivity.
  - left. exists (mkHttpResponse true (Returned JNull)). split; reflexivity.
Defined.

(** X12: neither action catches a failure of [request.formData()]: when the
    body of the request is not a form, the profile-edit action and the signup
    action throw what [formData()] threw, before anything else happens. *)
Theorem actions_propagate_form_failure
    (svc : Services) (request : Request) (params : Params) (w : World)
    (t : Thrown) :
  body request = Threw t ->
  UserEdit.action svc request params w = (Threw t, w)
  /\ Signup.action svc request w = (Threw t, w).
Proof.
  intros Hform. unfold UserEdit.action, Signup.action.
  cbn [bind Monad_Handler]. unfold request_formData, lift.
  rewrite Hform. split; reflexivity.
Qed.

Lemma actions_propagate_form_failure_witness :
  UserEdit.action (Samples.services (Some Samples.aya) Samples.healthy)
    (mkRequest None (Threw (JsError "TypeError" "Could not parse content as FormData.")))
    Samples.params Samples.world0
  = (Threw (JsError "TypeError" "Could not parse content as FormData."),
     Samples.world0)
  /\ Signup.action (Samples.services (Some Samples.aya) Samples.healthy)
       (mkRequest None (Threw (JsError "TypeError" "Could not parse content as FormData.")))
       Samples.world0
     = (Threw (JsError "TypeError" "Could not parse content as FormData."),
        Samples.world0).
Proof.
  apply (actions_propagate_form_failure
           (Samples.services (Some Samples.aya) Samples.healthy)
           (mkRequest None
              (Threw (JsError "TypeError" "Could not parse content as FormData.")))
           Samples.params Samples.world0).
  reflexivity.
Defined.

(** * The sign-in helper and the signup action *)

(** X13: [signInWithGoogle] reports an error text only when the provider
    returned an error and no data: a non-empty [error] means [data] is
    [null], [ok] is false and the text is the provider's message.  With data
    present the provider's error is blanked.  The [headers] are the session
    headers in every case. *)
Theorem signInWithGoogle_error_only_without_data
    (svc : Services) (request : Request) :
  let r := Auth.signInWithGoogle svc request in
  let provider := signInWithOAuth svc request "google"
                    "http://localhost:5173/auth/callback" in
  Auth.headers r = session_headers svc request
  /\ Auth.data r = oauth_data provider
  /\ (Auth.ok r = true <-> oauth_error provider = None /\ oauth_data provider <> None)
  /\ (Auth.error r <> "" ->
        Auth.data r = None /\ Auth.ok r = false
        /\ exists e, oauth_error provider = Some e /\ message e = Auth.error r)
  /\ (oauth_data provider <> None -> Auth.error r = "").
Proof.
  cbn. unfold Auth.default_successRedirectPath.
  destruct (signInWithOAuth svc request "google" _) as [[d |] [e |]]; cbn;
    repeat split; try discriminate; try congruence;
    try (intros [H1 H2]; congruence); try (intros H; contradiction H; reflexivity).
  - exists e. split; reflexivity.
Qed.

Lemma is_string_true (v : option string) (s : string) :
  is_string v s = true <-> v = Some s.
Proof.
  unfold is_string. destruct v as [s' |]; [| split; discriminate].
  rewrite String.eqb_eq. split; [intros -> | intros [= ->]]; reflexivity.
Qed.

Lemma is_string_false (v : option string) (s : string) :
  is_string v s = false <-> v <> Some s.
Proof.
  rewrite <- is_string_true. destruct (is_string v s); split; congruence.
Qed.

(** X14: a signup form whose [provider] is missing or is anything but
    ["google"] gets [{error: "Invalid provider"}], whatever the services
    would have answered, and the world is untouched. *)
Theorem signup_rejects_other_providers
    (svc : Services) (request : Request) (formData : FormData) (w : World) :
  body request = Returned formData ->
  formData_get formData "provider" <> Some "google" ->
  Signup.action svc request w
  = (Returned (Data [("error", Some (JStr "Invalid provider"))]), w).
Proof.
  intros Hform Hprovider. apply is_string_false in Hprovider.
  unfold Signup.action. cbn [bind ret Monad_Handler].
  unfold request_formData, lift. rewrite Hform, Hprovider. reflexivity.
Qed.

Lemma signup_rejects_other_providers_witness :
  Signup.action Samples.oauth_services
    (mkRequest None (Returned [("provider", "Google")])) Samples.world0
  = (Returned (Data [("error", Some (JStr "Invalid provider"))]), Samples.world0).
Proof.
  apply (signup_rejects_other_providers Samples.oauth_services
           (mkRequest None (Returned [("provider", "Google")]))
           [("provider", "Google")] Samples.world0).
  - reflexivity.
  - discriminate.
Defined.

(** X15: the signup action redirects exactly when the form asks for
    ["google"], the provider's data has a non-empty [url] and [redirect]
    takes that [url] as a [Location]; the redirect goes to that [url] with
    the session headers.  Whether the provider also returned an error plays
    no part: the helper has blanked it.  When [redirect] refuses the [url],
    what it throws leaves the action uncaught. *)
Theorem signup_redirects_exactly_on_provider_url
    (svc : Services) (request : Request) (formData : FormData) (w : World)
    (target : string) (hs : Headers) :
  body request = Returned formData ->
  (fst (Signup.action svc request w) = Returned (Redirect target hs)
   <-> formData_get formData "provider" = Some "google"
       /\ hs = session_headers svc request
       /\ target <> ""
       /\ (exists d,
             oauth_data (signInWithOAuth svc request "google"
                           "http://localhost:5173/auth/callback") = Some d
             /\ url d = Some target)
       /\ legal_location svc target)
  /\ (forall t,
        formData_get formData "provider" = Some "google" ->
        target <> "" ->
        (exists d,
            oauth_data (signInWithOAuth svc request "google"
                          "http://localhost:5173/auth/callback") = Some d
            /\ url d = Some target) ->
        header_value_error svc target = Some t ->
        Signup.action svc request w = (Threw t, w)).
Proof.
  intros Hform. unfold Signup.action. cbn [bind ret Monad_Handler].
  unfold request_formData, lift. rewrite Hform.
  destruct (is_string (formData_get formData "provider") "google") eqn:Hp.
  2:{ apply is_string_false in Hp. cbn. split.
      - split; [discriminate |]. intros (Hg & _). contradiction.
      - intros t Hg. contradiction. }
  apply is_string_true in Hp.
  unfold Auth.signInWithGoogle, Auth.default_successRedirectPath. cbn.
  destruct (signInWithOAuth svc request "google" _) as [data err]. cbn.
  destruct data as [d |].
  - (* data present: the error is blanked, the url decides *)
    assert (Herr : match err with Some _ | None => "" end = "")
      by (destruct err; reflexivity).
    rewrite Herr. cbn.
    destruct d as [[[| c rest] |]]; cbn.
    + split.
      * split; [discriminate |].
        intros (_ & _ & Hne & (d & [= <-] & [= <-]) & _).
        contradiction Hne. reflexivity.
      * intros t _ Hne (d & [= <-] & [= <-]). contradiction Hne. reflexivity.
    + unfold redirect, legal_location. split.
      * destruct (header_value_error svc (String c rest)) as [t |] eqn:Hlegal;
          cbn.
        -- split; [discriminate |].
           intros (_ & _ & _ & (d & [= <-] & [= <-]) & Hl). congruence.
        -- split.
           ++ intros [= <- <-]. repeat split; [exact Hp | discriminate | | exact Hlegal].
              eexists. split; reflexivity.
           ++ intros (_ & -> & _ & (d & [= <-] & [= <-]) & _). reflexivity.
      * intros t _ _ (d & [= <-] & [= <-]) Hrefused. cbn in Hrefused.
        rewrite Hrefused. reflexivity.
    + split.
      * split; [discriminate |].
        intros (_ & _ & _ & (d & [= <-] & Hu) & _). discriminate Hu.
      * intros t _ _ (d & [= <-] & Hu). discriminate Hu.
  - (* no data: never a redirect *)
    split.
    + split.
      * destruct err as [[[| c m]] |]; cbn; discriminate.
      * intros (_ & _ & _ & (d & Hd & _) & _). discriminate Hd.
    + intros t _ _ (d & Hd & _). discriminate Hd.
Qed.

Lemma signup_redirects_exactly_on_provider_url_witness :
  fst (Signup.action
         (mkServices (fun _ => None) (fun _ => Samples.fresh_session)
            (fun _ _ _ =>
               mkOAuthResponse (Some (mkOAuthData (Some "https://idp.example/auth")))
                 (Some (mkAuthError "rate limited")))
            Samples.unreachable Samples.no_line_feed)
         Samples.signup_request Samples.world0)
  = Returned (Redirect "https://idp.example/auth" Samples.fresh_session).
Proof.
  apply (signup_redirects_exactly_on_provider_url
           (mkServices (fun _ => None) (fun _ => Samples.fresh_session)
              (fun _ _ _ =>
                 mkOAuthResponse (Some (mkOAuthData (Some "https://idp.example/auth")))
                   (Some (mkAuthError "rate limited")))
              Samples.unreachable Samples.no_line_feed)
           Samples.signup_request [("provider", "google")] Samples.world0
           "https://idp.example/auth" Samples.fresh_session).
  - reflexivity.
  - repeat split; [discriminate |].
    exists (mkOAuthData (Some "https://idp.example/auth")). split; reflexivity.
Defined.

(** X16: when the form asks for ["google"] and the provider's data has no
    usable [url], the signup action returns [{error}] without moving: the
    provider's message when the provider returned an error, no data and a
    non-empty message, and the fixed failure message in every other case. *)
Theorem signup_failure_message
    (svc : Services) (request : Request) (formData : FormData) (w : World) :
  body request = Returned formData ->
  formData_get formData "provider" = Some "google" ->
  let provider := signInWithOAuth svc request "google"
                    "http://localhost:5173/auth/callback" in
  truthy_string (Signup.data_url (oauth_data provider)) = None ->
  Signup.action svc request w
  = (Returned (Data [("error", Some (JStr
        match oauth_error provider, oauth_data provider with
        | Some e, None => or_else (Some (message e)) Signup.failure_message
        | _, _ => Signup.failure_message
        end))]), w).
Proof.
  intros Hform Hp provider Hurl. apply is_string_true in Hp.
  unfold Signup.action. cbn [bind ret Monad_Handler].
  unfold request_formData, lift. rewrite Hform, Hp.
  unfold Auth.signInWithGoogle, Auth.default_successRedirectPath. cbn.
  fold provider. cbn in Hurl. 
  destruct provider as [[d |] [e |]]; cbn in *.
  - rewrite Hurl. reflexivity.
  - rewrite Hurl. reflexivity.
  - destruct e as [[| c m]]; reflexivity.
  - reflexivity.
Qed.

Lemma signup_failure_message_witness :
  Signup.action (Samples.services None Samples.healthy)
    Samples.signup_request Samples.world0
  = (Returned (Data [("error", Some (JStr "provider disabled"))]), Samples.world0).
Proof.
  apply (signup_failure_message (Samples.services None Samples.healthy)
           Samples.signup_request [("provider", "google")] Samples.world0);
    reflexivity.
Defined.

(** * The pages *)

Section Collecting.

Context {A : Type} (q : Jsx.Node -> option A).

Lemma collect_app (l l' : list Jsx.Node) :
  Jsx.collect q (l ++ l') = (Jsx.collect q l ++ Jsx.collect q l')%list.
Proof.
  induction l as [| n l IH]; [reflexivity |].
  cbn. destruct (q n); cbn; rewrite IH; reflexivity.
Qed.

Lemma collect_flat_map (nodes : list Jsx.Node) :
  Jsx.collect q (flat_map Jsx.descendants nodes)
  = flat_map (fun n => Jsx.collect q (Jsx.descendants n)) nodes.
Proof.
  induction nodes as [| n nodes IH]; [reflexivity |].
  cbn [flat_map]. rewrite collect_app, IH. reflexivity.
Qed.

(** What a query finds in an element: the element itself if it answers, then
    what it finds in each child. *)
Lemma collect_Elem (tag : string) (props : list (string * Jsx.PropValue))
    (children : list Jsx.Node) :
  Jsx.collect q (Jsx.descendants (Jsx.Elem tag props children))
  = (match q (Jsx.Elem tag props children) with
     | Some a => [a]
     | None => []
     end
     ++ flat_map (fun n => Jsx.collect q (Jsx.descendants n)) children)%list.
Proof.
  cbn [Jsx.descendants Jsx.collect]. rewrite collect_flat_map.
  destruct (q _); reflexivity.
Qed.

End Collecting.

(** The cards of a rendered list come from the posts, one for one. *)
Lemma traverse_Returned {A B : Type} (f : A -> Completion B)
    (items : list A) (results : list B) :
  traverse f items = Returned results <->
  Forall2 (fun x y => f x = Returned y) items results.
Proof.
  revert results. induction items as [| x items IH]; intros results; cbn.
  - split.
    + intros [= <-]. constructor.
    + intros H. inversion H. reflexivity.
  - split.
    + destruct (f x) as [y | t] eqn:Hx; [| discriminate].
      destruct (traverse f items) as [ys | t] eqn:Hrest; [| discriminate].
      intros [= <-]. constructor; [exact Hx | apply IH; reflexivity].
    + intros H. inversion H as [| x' y items' ys Hx Hrest]; subst.
      rewrite Hx. apply IH in Hrest. rewrite Hrest. reflexivity.
Qed.

Lemma traverse_Threw {A B : Type} (f : A -> Completion B) (items : list A) :
  (exists t, traverse f items = Threw t) <->
  Exists (fun x => exists t, f x = Threw t) items.
Proof.
  induction items as [| x items IH]; cbn.
  - split; [intros [t H]; discriminate | intros H; inversion H].
  - destruct (f x) as [y | t] eqn:Hx.
    + destruct (traverse f items) as [ys | t] eqn:Hrest.
      * split; [intros [t H]; discriminate |].
        intros H. inversion H as [? ? [t Ht] | ? ? Hex]; subst.
        -- congruence.
        -- apply IH in Hex. destruct Hex as [t Ht]. discriminate.
      * split; [| intros _; exists t; reflexivity].
        intros _. apply Exists_cons_tl. apply IH. exists t. reflexivity.
    + split; [| intros _; exists t; reflexivity].
      intros _. apply Exists_cons_hd. exists t. exact Hx.
Qed.

(** X17: the user-detail page renders exactly when the date of every post
    can be formatted; one post with an unreadable date makes the whole
    render throw.  With no posts nothing is formatted and the page always
    renders. *)
Theorem detail_page_renders_iff_dates_format
    (formatDate : string -> Completion string) (user : option User)
    (pageUser : ApiUser.t) (postsData : list Post.t) :
  ((exists tree,
       UserDetailPage.render formatDate user pageUser postsData = Returned tree)
   <-> Forall (fun post => exists date,
                 formatDate (Post.created_at post) = Returned date) postsData)
  /\ ((exists t,
         UserDetailPage.render formatDate user pageUser postsData = Threw t)
      <-> Exists (fun post => exists t,
                    formatDate (Post.created_at post) = Threw t) postsData).
Proof.
  assert (Hcard : forall post,
             (exists t, UserDetailPage.post_card formatDate post = Threw t)
             <-> exists t, formatDate (Post.created_at post) = Threw t).
  { intros post. unfold UserDetailPage.post_card. cbn.
    destruct (formatDate (Post.created_at post)) as [date | t].
    - split; intros [t H]; discriminate.
    - split; intros _; exists t; reflexivity. }
  assert (Hthrow :
            (exists t,
                UserDetailPage.render formatDate user pageUser postsData = Threw t)
            <-> Exists (fun post => exists t,
                          formatDate (Post.created_at post) = Threw t) postsData).
  { unfold UserDetailPage.render, UserDetailPage.posts_list.
    destruct postsData as [| post rest].
    - cbn. split; [intros [t H]; discriminate | intros H; inversion H].
    - cbn [bind ret Monad_Completion].
      assert (Hposts :
                Exists (fun p => exists t,
                          formatDate (Post.created_at p) = Threw t) (post :: rest)
                <-> exists t,
                      traverse (UserDetailPage.post_card formatDate) (post :: rest)
                      = Threw t).
      { rewrite traverse_Threw, !Exists_exists.
        split; intros (p & Hin & H); exists p;
          (split; [exact Hin | apply Hcard; exact H]). }
      rewrite Hposts.
      destruct (traverse _ (post :: rest)) as [cards | t].
      + split; intros [t H]; discriminate.
      + split; intros _; exists t; reflexivity. }
  split; [| exact Hthrow].
  destruct (UserDetailPage.render formatDate user pageUser postsData)
    as [tree | t] eqn:Hrender.
  - split; [intros _ | intros _; exists tree; reflexivity].
    apply Forall_forall. intros post Hin.
    destruct (formatDate (Post.created_at post)) as [date | t] eqn:Hdate;
      [exists date; reflexivity |].
    assert (Hex : exists t', Returned tree = Threw t').
    { apply Hthrow. apply Exists_exists. exists post.
      split; [exact Hin | exists t; exact Hdate]. }
    destruct Hex as [t' Ht']. discriminate.
  - split; [intros [tree H]; discriminate |].
    intros Hall.
    assert (Hex : Exists (fun post => exists t,
                            formatDate (Post.created_at post) = Threw t) postsData)
      by (apply Hthrow; exists t; reflexivity).
    apply Exists_exists in Hex. destruct Hex as (post & Hin & t' & Ht').
    rewrite Forall_forall in Hall. destruct (Hall post Hin) as [date Hdate].
    congruence.
Qed.

Lemma collect_Text {A : Type} (q : Jsx.Node -> option A) (s : string) :
  Jsx.collect q (Jsx.descendants (Jsx.Text s))
  = match q (Jsx.Text s) with
    | Some a => [a]
    | None => []
    end.
Proof. cbn. destruct (q _); reflexivity. Qed.

(** Walks a query down a tree whose shape is known. *)
Ltac walk :=
  repeat first [ rewrite collect_Elem
               | rewrite collect_Text
               | progress cbn [flat_map app Jsx.when Jsx.text] ].

(** What a rendered list of posts is made of. *)
Lemma posts_list_Returned (formatDate : string -> Completion string)
    (postsData : list Post.t) (list : Jsx.Node) :
  UserDetailPage.posts_list formatDate postsData = Returned list ->
  (postsData = []
   /\ list = Jsx.Elem "div"
               [("className", Jsx.Str UserDetailPage.empty_state_class)]
               [Jsx.Text "まだ投稿がありません。"])
  \/ (postsData <> []
      /\ exists cards,
           Forall2 (fun post card =>
                      UserDetailPage.post_card formatDate post = Returned card)
             postsData cards
           /\ list = Jsx.Elem "div" [("className", Jsx.Str "space-y-4")] cards).
Proof.
  unfold UserDetailPage.posts_list. destruct postsData as [| post rest].
  - intros [= <-]. left. split; reflexivity.
  - cbn [bind ret Monad_Completion].
    destruct (traverse _ (post :: rest)) as [cards | t] eqn:Hcards;
      [| discriminate].
    intros [= <-]. right. split; [discriminate |].
    exists cards. split; [apply traverse_Returned; exact Hcards | reflexivity].
Qed.

(** What a query finds in the cards, post by post. *)
Lemma collect_cards {A : Type} (q : Jsx.Node -> option A)
    (formatDate : string -> Completion string) (found : Post.t -> list A)
    (postsData : list Post.t) (cards : list Jsx.Node) :
  (forall post card,
      UserDetailPage.post_card formatDate post = Returned card ->
      Jsx.collect q (Jsx.descendants card) = found post) ->
  Forall2 (fun post card =>
             UserDetailPage.post_card formatDate post = Returned card)
    postsData cards ->
  flat_map (fun n => Jsx.collect q (Jsx.descendants n)) cards
  = flat_map found postsData.
Proof.
  intros Hcard Hall. induction Hall as [| post card posts cards Hc _ IH].
  - reflexivity.
  - cbn [flat_map]. rewrite (Hcard post card Hc), IH. reflexivity.
Qed.

Lemma card_links (formatDate : string -> Completion string) (post : Post.t)
    (card : Jsx.Node) :
  UserDetailPage.post_card formatDate post = Returned card ->
  Jsx.links card = [].
Proof.
  unfold UserDetailPage.post_card. cbn.
  destruct (formatDate (Post.created_at post)) as [date | t]; [| discriminate].
  intros [= <-].
  destruct (Post.title post), (Post.is_public post), (Post.content post), date;
    reflexivity.
Qed.

Lemma card_keys (formatDate : string -> Completion string) (post : Post.t)
    (card : Jsx.Node) :
  UserDetailPage.post_card formatDate post = Returned card ->
  Jsx.keys card = [Post.id post].
Proof.
  unfold UserDetailPage.post_card. cbn.
  destruct (formatDate (Post.created_at post)) as [date | t]; [| discriminate].
  intros [= <-].
  destruct (Post.title post), (Post.is_public post), (Post.content post), date;
    reflexivity.
Qed.

Lemma card_badges (formatDate : string -> Completion string) (post : Post.t)
    (card : Jsx.Node) :
  UserDetailPage.post_card formatDate post = Returned card ->
  Jsx.with_class UserDetailPage.badge_class card
  = if Post.is_public post then []
    else [Jsx.Elem "span"
            [("className", Jsx.Str UserDetailPage.badge_class)]
            [Jsx.Text "非公開"]].
Proof.
  unfold UserDetailPage.post_card. cbn.
  destruct (formatDate (Post.created_at post)) as [date | t]; [| discriminate].
  intros [= <-].
  destruct (Post.title post), (Post.is_public post), (Post.content post), date;
    reflexivity.
Qed.

Lemma card_empty_state (formatDate : string -> Completion string)
    (post : Post.t) (card : Jsx.Node) :
  UserDetailPage.post_card formatDate post = Returned card ->
  Jsx.with_class UserDetailPage.empty_state_class card = [].
Proof.
  unfold UserDetailPage.post_card. cbn.
  destruct (formatDate (Post.created_at post)) as [date | t]; [| discriminate].
  intros [= <-].
  destruct (Post.title post), (Post.is_public post), (Post.content post), date;
    reflexivity.
Qed.

Lemma isOwnProfile_not_self (user : option User) (pageUser : ApiUser.t) :
  UserDetailPage.isOwnProfile user pageUser
  = negb (not_self user (ApiUser.id pageUser)).
Proof.
  unfold UserDetailPage.isOwnProfile, not_self.
  destruct user as [usr |]; [| reflexivity].
  rewrite negb_involutive. reflexivity.
Qed.

(** What a query finds in the rendered list of posts, given what it finds in
    a card and in the empty state, for a query that passes over the wrapper
    of the cards. *)
Lemma collect_posts_list {A : Type} (q : Jsx.Node -> option A)
    (formatDate : string -> Completion string) (found : Post.t -> list A)
    (in_empty : list A) (postsData : list Post.t) (list : Jsx.Node) :
  UserDetailPage.posts_list formatDate postsData = Returned list ->
  (forall post card,
      UserDetailPage.post_card formatDate post = Returned card ->
      Jsx.collect q (Jsx.descendants card) = found post) ->
  Jsx.collect q
    (Jsx.descendants
       (Jsx.Elem "div" [("className", Jsx.Str UserDetailPage.empty_state_class)]
          [Jsx.Text "まだ投稿がありません。"])) = in_empty ->
  (forall cards,
      q (Jsx.Elem "div" [("className", Jsx.Str "space-y-4")] cards) = None) ->
  Jsx.collect q (Jsx.descendants list)
  = match postsData with
    | [] => in_empty
    | _ :: _ => flat_map found postsData
    end.
Proof.
  intros Hlist Hcard Hempty Hwrapper.
  apply posts_list_Returned in Hlist.
  destruct Hlist as [[-> ->] | (Hne & cards & Hcards & ->)]; [exact Hempty |].
  destruct postsData as [| post rest]; [contradiction Hne; reflexivity |].
  rewrite collect_Elem, Hwrapper.
  rewrite (collect_cards q formatDate found (post :: rest) cards Hcard Hcards).
  reflexivity.
Qed.

(** Walks a query over the rendered user-detail page, down to the list of
    posts, of which [Hl] says what the query finds there. *)
Ltac walk_page Hl q :=
  match goal with
  | |- context [UserDetailPage.isOwnProfile ?user ?pageUser] =>
      destruct (UserDetailPage.isOwnProfile user pageUser),
        (ApiUser.name pageUser), (truthy_string (ApiUser.bio pageUser)),
        (ApiUser.email pageUser);
      walk; rewrite Hl; subst q
  end.

Lemma render_links
    (formatDate : string -> Completion string) (user : option User)
    (pageUser : ApiUser.t) (postsData : list Post.t) (tree : Jsx.Node) :
  UserDetailPage.render formatDate user pageUser postsData = Returned tree ->
  Jsx.links tree
  = if UserDetailPage.isOwnProfile user pageUser
    then [UserDetailPage.edit_link pageUser; "/posts/new"]
    else [].
Proof.
  unfold UserDetailPage.render. cbn [bind ret Monad_Completion].
  destruct (UserDetailPage.posts_list formatDate postsData) as [list | t] eqn:Hlist;
    [| discriminate].
  intros [= <-].
  unfold Jsx.links.
  remember (fun d => if Jsx.tag_is "Link" d then Jsx.prop_string "to" d else None)
    as q eqn:Hq.
  assert (Hl : Jsx.collect q (Jsx.descendants list) = []).
  { rewrite (collect_posts_list q formatDate (fun _ => []) [] postsData list Hlist).
    - destruct postsData as [| post rest]; [reflexivity |].
      clear. generalize (post :: rest). intros l.
      induction l as [| p l IH]; [reflexivity | exact IH].
    - intros post card Hc. subst q. exact (card_links formatDate post card Hc).
    - subst q. reflexivity.
    - intros cards. subst q. reflexivity. }
  walk_page Hl q; reflexivity.
Qed.

(** X18: the user-detail page links to the profile-edit page (the pencil)
    and to the new-post page exactly for a viewer who is the owner of the
    profile; for anyone else, and for an anonymous viewer, the page has no
    link at all. *)
Theorem detail_page_links_for_owner_only
    (formatDate : string -> Completion string) (user : option User)
    (pageUser : ApiUser.t) (postsData : list Post.t) (tree : Jsx.Node) :
  UserDetailPage.render formatDate user pageUser postsData = Returned tree ->
  Jsx.links tree
  = match user with
    | Some viewer =>
        if String.eqb (id viewer) (ApiUser.id pageUser)
        then ["/users/" ++ ApiUser.id pageUser ++ "/edit"; "/posts/new"]
        else []
    | None => []
    end.
Proof.
  intros Hrender. rewrite (render_links _ _ _ _ _ Hrender).
  destruct user; reflexivity.
Qed.

Lemma detail_page_links_for_owner_only_witness :
  exists tree,
    UserDetailPage.render PageSamples.iso_date (Some Samples.aya)
      PageSamples.aya_profile PageSamples.aya_posts = Returned tree
    /\ Jsx.links tree = ["/users/123/edit"; "/posts/new"].
Proof.
  eexists. split; [reflexivity |].
  apply (detail_page_links_for_owner_only PageSamples.iso_date (Some Samples.aya)
           PageSamples.aya_profile PageSamples.aya_posts).
  reflexivity.
Defined.

(** X19: the rendered user-detail page has one keyed card per post, keyed by
    the post's [id], in the order of [postsData], and no other keyed element;
    the empty-state block is there exactly when there is no post. *)
Theorem detail_page_one_card_per_post
    (formatDate : string -> Completion string) (user : option User)
    (pageUser : ApiUser.t) (postsData : list Post.t) (tree : Jsx.Node) :
  UserDetailPage.render formatDate user pageUser postsData = Returned tree ->
  Jsx.keys tree = map Post.id postsData
  /\ length (Jsx.with_class UserDetailPage.empty_state_class tree)
     = match postsData with
       | [] => 1
       | _ :: _ => 0
       end.
Proof.
  unfold UserDetailPage.render. cbn [bind ret Monad_Completion].
  destruct (UserDetailPage.posts_list formatDate postsData) as [list | t] eqn:Hlist;
    [| discriminate].
  intros [= <-]. split.
  - unfold Jsx.keys.
    remember (Jsx.prop_string "key") as q eqn:Hq.
    assert (Hl : Jsx.collect q (Jsx.descendants list) = map Post.id postsData).
    { rewrite (collect_posts_list q formatDate (fun post => [Post.id post]) []
                 postsData list Hlist).
      - destruct postsData as [| post rest]; [reflexivity |].
        generalize (post :: rest). intros l.
        induction l as [| p l IH]; [reflexivity | cbn; rewrite IH; reflexivity].
      - intros post card Hc. subst q. exact (card_keys formatDate post card Hc).
      - subst q. reflexivity.
      - intros cards. subst q. reflexivity. }
    walk_page Hl q; cbn; rewrite ?app_nil_r; reflexivity.
  - unfold Jsx.with_class.
    remember (fun d => match Jsx.prop_string "className" d with
                       | Some c =>
                           if String.eqb c UserDetailPage.empty_state_class
                           then Some d else None
                       | None => None
                       end) as q eqn:Hq.
    assert (Hl : length (Jsx.collect q (Jsx.descendants list))
                 = match postsData with [] => 1 | _ :: _ => 0 end).
    { rewrite (collect_posts_list q formatDate (fun _ => [])
                 [Jsx.Elem "div"
                    [("className", Jsx.Str UserDetailPage.empty_state_class)]
                    [Jsx.Text "まだ投稿がありません。"]]
                 postsData list Hlist).
      - destruct postsData as [| post rest]; [reflexivity |].
        generalize (post :: rest). intros l.
        induction l as [| p l IH]; [reflexivity | exact IH].
      - intros post card Hc. subst q.
        exact (card_empty_state formatDate post card Hc).
      - subst q. reflexivity.
      - intros cards. subst q. reflexivity. }
    destruct (UserDetailPage.isOwnProfile user pageUser),
      (ApiUser.name pageUser), (truthy_string (ApiUser.bio pageUser)),
      (ApiUser.email pageUser);
      walk;
      set (found := Jsx.collect q (Jsx.descendants list)) in *; clearbody found;
      subst q; cbn; rewrite ?app_nil_r; exact Hl.
Qed.

Lemma detail_page_one_card_per_post_witness :
  exists tree,
    UserDetailPage.render PageSamples.iso_date None
      PageSamples.aya_profile PageSamples.aya_posts = Returned tree
    /\ Jsx.keys tree = ["p1"; "p2"]
    /\ length (Jsx.with_class UserDetailPage.empty_state_class tree) = 0.
Proof.
  eexists. split; [reflexivity |].
  apply (detail_page_one_card_per_post PageSamples.iso_date None
           PageSamples.aya_profile PageSamples.aya_posts).
  reflexivity.
Defined.

(** X20: the rendered user-detail page shows the private badge once for
    each post that is not public, and nowhere else. *)
Theorem detail_page_badges_private_posts
    (formatDate : string -> Completion string) (user : option User)
    (pageUser : ApiUser.t) (postsData : list Post.t) (tree : Jsx.Node) :
  UserDetailPage.render formatDate user pageUser postsData = Returned tree ->
  length (Jsx.with_class UserDetailPage.badge_class tree)
  = length (filter (fun post => negb (Post.is_public post)) postsData).
Proof.
  unfold UserDetailPage.render. cbn [bind ret Monad_Completion].
  destruct (UserDetailPage.posts_list formatDate postsData) as [list | t] eqn:Hlist;
    [| discriminate].
  intros [= <-]. unfold Jsx.with_class.
  remember (fun d => match Jsx.prop_string "className" d with
                     | Some c =>
                         if String.eqb c UserDetailPage.badge_class
                         then Some d else None
                     | None => None
                     end) as q eqn:Hq.
  assert (Hl : length (Jsx.collect q (Jsx.descendants list))
               = length (filter (fun post => negb (Post.is_public post)) postsData)).
  { rewrite (collect_posts_list q formatDate
               (fun post =>
                  if Post.is_public post then []
                  else [Jsx.Elem "span"
                          [("className", Jsx.Str UserDetailPage.badge_class)]
                          [Jsx.Text "非公開"]])
               [] postsData list Hlist).
    - destruct postsData as [| post rest]; [reflexivity |].
      generalize (post :: rest). intros l.
      induction l as [| p l IH]; [reflexivity |].
      cbn. destruct (Post.is_public p); cbn; rewrite IH; reflexivity.
    - intros post card Hc. subst q.
      exact (card_badges formatDate post card Hc).
    - subst q. reflexivity.
    - intros cards. subst q. reflexivity. }
  destruct (UserDetailPage.isOwnProfile user pageUser),
    (ApiUser.name pageUser), (truthy_string (ApiUser.bio pageUser)),
    (ApiUser.email pageUser);
    walk;
    set (found := Jsx.collect q (Jsx.descendants list)) in *; clearbody found;
    subst q; cbn; rewrite ?app_nil_r; exact Hl.
Qed.

Lemma detail_page_badges_private_posts_witness :
  exists tree,
    UserDetailPage.render PageSamples.iso_date None
      PageSamples.aya_profile PageSamples.aya_posts = Returned tree
    /\ length (Jsx.with_class UserDetailPage.badge_class tree) = 1.
Proof.
  eexists. split; [reflexivity |].
  apply (detail_page_badges_private_posts PageSamples.iso_date None
           PageSamples.aya_profile PageSamples.aya_posts).
  reflexivity.
Defined.

(** X21: the pencil and the profile-edit route agree.  For the viewer the
    session resolves to, the user-detail page shows the link to
    [/users/{id}/edit] exactly when the profile-edit loader for that path
    admits the request and goes on to fetch the profile; when the link is not
    shown, the loader would refuse with [Error("Unauthorized")]. *)
Theorem edit_link_shown_exactly_to_admitted_viewers
    (formatDate : string -> Completion string) (svc : Services)
    (request : Request) (pageUser : ApiUser.t) (postsData : list Post.t)
    (tree : Jsx.Node) (w : World) :
  UserDetailPage.render formatDate (getUser svc request) pageUser postsData
    = Returned tree ->
  ApiUser.id pageUser <> "" ->
  let params := mkParams (Some (ApiUser.id pageUser)) in
  (In (UserDetailPage.edit_link pageUser) (Jsx.links tree)
   /\ calls (snd (UserEdit.loader svc request params w))
      = (calls w ++ [fetch_user (ApiUser.id pageUser)])%list)
  \/ (~ In (UserDetailPage.edit_link pageUser) (Jsx.links tree)
      /\ UserEdit.loader svc request params w
         = (Threw (new_Error "Unauthorized"), w)).
Proof.
  intros Hrender Hid params.
  rewrite (render_links _ _ _ _ _ Hrender), isOwnProfile_not_self.
  assert (Hroute : route_subject params (ApiUser.id pageUser))
    by (split; [reflexivity | exact Hid]).
  destruct (not_self (getUser svc request) (ApiUser.id pageUser)) eqn:Hwho; cbn.
  - right. split; [intros [] |].
    unfold UserEdit.loader.
    rewrite (route_subject_truthy _ _ Hroute), Hwho. reflexivity.
  - left. split; [left; reflexivity |].
    unfold UserEdit.loader.
    rewrite (route_subject_truthy _ _ Hroute), Hwho.
    cbn [bind ret raise Monad_Handler Exc_Handler].
    unfold api_call, response_json, lift, fetch_user.
    destruct (backend svc (calls w) _) as [response | t]; cbn; [| reflexivity].
    destruct (json_result response) as [userData | t]; cbn; [| reflexivity].
    destruct (UserEdit.isApiError userData); [| reflexivity].
    destruct (strict_eq_string _ _); reflexivity.
Qed.

Lemma edit_link_shown_exactly_to_admitted_viewers_witness :
  exists tree,
    UserDetailPage.render PageSamples.iso_date (Some Samples.aya)
      PageSamples.aya_profile PageSamples.aya_posts = Returned tree
    /\ ((In "/users/123/edit" (Jsx.links tree)
         /\ calls (snd (UserEdit.loader
                          (Samples.services (Some Samples.aya) Samples.healthy)
                          Samples.request Samples.params Samples.world0))
            = [fetch_user "123"])
        \/ (~ In "/users/123/edit" (Jsx.links tree)
            /\ UserEdit.loader
                 (Samples.services (Some Samples.aya) Samples.healthy)
                 Samples.request Samples.params Samples.world0
               = (Threw (new_Error "Unauthorized"), Samples.world0))).
Proof.
  eexists. split; [reflexivity |].
  apply (edit_link_shown_exactly_to_admitted_viewers PageSamples.iso_date
           (Samples.services (Some Samples.aya) Samples.healthy)
           Samples.request PageSamples.aya_profile PageSamples.aya_posts).
  - reflexivity.
  - discriminate.
Defined.

(** X22: the form of the profile-edit page and the action that receives it
    fit together.  The form has two named controls, [name] and [bio], whose
    initial values are the profile's name and its bio (the empty string for a
    [null] bio); an action that receives these fields from the owner sends
    one PATCH for the path's user with exactly these two strings, never a
    [null]. *)
Theorem edit_form_round_trip
    (svc : Services) (request : Request) (params : Params) (u : string)
    (pageUser : ApiUser.t) (w : World) :
  route_subject params u ->
  is_self svc request u ->
  body request = Returned (Jsx.controls (UserEditPage.render pageUser)) ->
  Jsx.controls (UserEditPage.render pageUser)
    = [("name", ApiUser.name pageUser);
       ("bio", match ApiUser.bio pageUser with
               | Some bio => bio
               | None => ""
               end)]
  /\ calls (snd (UserEdit.action svc request params w))
     = (calls w
          ++ [mkApiCall users_patch [("userId", u)] None
                (Some (JObj [("name", JStr (ApiUser.name pageUser));
                             ("bio", JStr match ApiUser.bio pageUser with
                                          | Some bio => bio
                                          | None => ""
                                          end)]))])%list.
Proof.
  intros Hroute Hself Hform.
  assert (Hcontrols :
            Jsx.controls (UserEditPage.render pageUser)
            = [("name", ApiUser.name pageUser);
               ("bio", match ApiUser.bio pageUser with
                       | Some bio => bio
                       | None => ""
                       end)]).
  { unfold Jsx.controls, UserEditPage.render. cbn.
    destruct (ApiUser.bio pageUser) as [[| c bio] |]; reflexivity. }
  split; [exact Hcontrols |].
  rewrite Hcontrols in Hform.
  enter_action Hform Hroute Hself.
  destruct (backend svc (calls w) _) as [response | t]; cbn; [| reflexivity].
  destruct (json_result response) as [payload | t]; cbn; [| reflexivity].
  destruct (ok response), (UserEdit.isApiError payload); try reflexivity.
  unfold redirect. destruct (header_value_error svc _); reflexivity.
Qed.

Lemma edit_form_round_trip_witness :
  Jsx.controls (UserEditPage.render PageSamples.aya_profile)
    = [("name", "Aya"); ("bio", "")]
  /\ calls (snd (UserEdit.action
                   (Samples.services (Some Samples.aya) Samples.healthy)
                   (mkRequest None
                      (Returned (Jsx.controls
                                   (UserEditPage.render PageSamples.aya_profile))))
                   Samples.params Samples.world0))
     = [mkApiCall users_patch [("userId", "123")] None
          (Some (JObj [("name", JStr "Aya"); ("bio", JStr "")]))].
Proof.
  apply (edit_form_round_trip
           (Samples.services (Some Samples.aya) Samples.healthy)
           (mkRequest None
              (Returned (Jsx.controls
                           (UserEditPage.render PageSamples.aya_profile))))
           Samples.params "123" PageSamples.aya_profile Samples.world0).
  - split; [reflexivity | discriminate].
  - exists Samples.aya. split; reflexivity.
  - reflexivity.
Defined.

(** X23: the form of the signup page has one named control, [provider] with
    the value [google]; an action that receives it gets past the provider
    check: whenever the provider hands out a non-empty URL that [redirect]
    takes as a [Location], the action redirects there, with the session
    headers. *)
Theorem signup_form_reaches_the_provider
    (svc : Services) (request : Request) (w : World) (d : OAuthData)
    (target : string) :
  body request = Returned (Jsx.controls SignupPage.render) ->
  oauth_data (signInWithOAuth svc request "google"
                "http://localhost:5173/auth/callback") = Some d ->
  url d = Some target ->
  target <> "" ->
  legal_location svc target ->
  Jsx.controls SignupPage.render = [("provider", "google")]
  /\ Signup.action svc request w
     = (Returned (Redirect target (session_headers svc request)), w).
Proof.
  intros Hform Hdata Hurl Hne Hlegal. split; [reflexivity |].
  unfold Signup.action. cbn [bind ret Monad_Handler].
  unfold request_formData, lift. rewrite Hform.
  unfold Auth.signInWithGoogle, Auth.default_successRedirectPath. cbn.
  rewrite Hdata. cbn. rewrite Hurl.
  assert (Herr : match oauth_error
                         (signInWithOAuth svc request "google"
                            "http://localhost:5173/auth/callback")
                 with Some _ | None => "" end = "")
    by (destruct (oauth_error _); reflexivity).
  rewrite Herr. cbn.
  destruct target as [| c rest]; [contradiction Hne; reflexivity |].
  cbn. unfold redirect. unfold legal_location in Hlegal. rewrite Hlegal.
  reflexivity.
Qed.

Lemma signup_form_reaches_the_provider_witness :
  Jsx.controls SignupPage.render = [("provider", "google")]
  /\ Signup.action Samples.oauth_services
       (mkRequest None (Returned (Jsx.controls SignupPage.render))) Samples.world0
     = (Returned (Redirect "https://accounts.example/o/oauth2?p=google"
                    Samples.fresh_session), Samples.world0).
Proof.
  apply (signup_form_reaches_the_provider Samples.oauth_services
           (mkRequest None (Returned (Jsx.controls SignupPage.render)))
           Samples.world0
           (mkOAuthData (Some "https://accounts.example/o/oauth2?p=google"))
           "https://accounts.example/o/oauth2?p=google").
  - reflexivity.
  - reflexivity.
  - reflexivity.
  - discriminate.
  - reflexivity.
Defined.



(** * A path the platform refuses *)

(** A [userId] with a line feed in it: the backend accepts the patch, the
    [redirect] inside the [try] throws, and the action logs and returns
    [{error}]. *)
Example edit_action_redirect_refused_is_caught :
  let u := "12" ++ String (Ascii.ascii_of_nat 10) "3" in
  UserEdit.action (Samples.services (Some (mkUser u)) Samples.healthy)
    Samples.request (mkParams (Some u)) Samples.world0
  = (Returned (Data [("error", Some (JStr "Invalid header value."))]),
     mkWorld [patch_user u Samples.patch]
       [("Error updating user:", JsError "TypeError" "Invalid header value.")]).
Proof. reflexivity. Qed.

(** A provider URL with a line feed in it: the [redirect] of the signup
    action throws, and nothing catches it. *)
Example signup_redirect_refused_is_thrown :
  Signup.action
    (mkServices (fun _ => None) (fun _ => Samples.fresh_session)
       (fun _ _ _ =>
          mkOAuthResponse
            (Some (mkOAuthData
                     (Some ("https://idp.example/" ++ String (Ascii.ascii_of_nat 10) "x"))))
            None)
       Samples.unreachable Samples.no_line_feed)
    Samples.signup_request Samples.world0
  = (Threw (JsError "TypeError" "Invalid header value."), Samples.world0).
Proof. reflexivity. Qed.
